(** * The nerfstudio pipeline ([nerfstudio/pipelines/base_pipeline.py])

    A shallow embedding of [Pipeline] and [VanillaPipeline]: checkpoint
    loading, the train / eval loss operations, the single-image evaluation
    and the full-dataset evaluation pass with its per-image test-time
    optimization and the final aggregation.

    Python dictionaries are finite maps ([gmap string _]); scalars are exact
    rationals ([Qc]) standing for the floats of the program; the methods of
    the pipeline run in a state-and-exception monad over the mutable part of
    [self]. *)

From Stdlib Require Import ZArith QArith Qround Qcanon.
From stdpp Require Import base option list strings gmap.


(** ** Python exceptions raised by the pipeline's own code *)

Inductive exn : Type :=
| AssertionError
| KeyError (key : string)
| IndexError
| ZeroDivisionError.

Inductive result (A : Type) : Type :=
| Ok (a : A)
| Raise (e : exn).
Arguments Ok {A} a.
Arguments Raise {A} e.

Definition is_ok {A} (r : result A) : bool :=
  match r with Ok _ => true | Raise _ => false end.

(** ** [str.replace] *)

Module Str.

(** [s.replace(old, new)] for a non-empty [old]: the occurrences of [old]
    are found from left to right and do not overlap; [skip] counts the
    characters of a matched occurrence that are still to be dropped. *)
Fixpoint replace_from (old new : string) (skip : nat) (s : string) : string :=
  match s with
  | EmptyString => EmptyString
  | String c s' =>
      match skip with
      | S n => replace_from old new n s'
      | O =>
          if String.prefix old s
          then new +:+ replace_from old new (String.length old - 1) s'
          else String c (replace_from old new 0 s')
      end
  end.

(** With an empty [old], Python puts [new] before every character and at
    the end. *)
Fixpoint around (new s : string) : string :=
  match s with
  | EmptyString => new
  | String c s' => new +:+ String c (around new s')
  end.

Definition replace (old new s : string) : string :=
  match old with
  | EmptyString => around new s
  | String _ _ => replace_from old new 0 s
  end.

End Str.

(** ** [VanillaPipeline.load_pipeline] *)

Inductive TestMode : Type := Test | Val | Inference.

Section LoadPipeline.
Context {V : Type}.

(** The dict comprehension
    [{key.replace("module.", ""): value for key, value in loaded_state.items()}]:
    the items are visited in the order of the dict, a later item
    overwrites an earlier one with the same new key. *)
Definition rename_keys (items : list (string * V)) : gmap string V :=
  foldl (fun state kv => <[Str.replace "module." "" kv.1 := kv.2]> state) ∅ items.

(** [state.pop(key, None)] *)
Definition pop (key : string) (state : gmap string V) : gmap string V :=
  delete key state.

Definition inference_pruned : list string :=
  [ "datamanager.train_camera_optimizer.pose_adjustment";
    "datamanager.train_ray_generator.image_coords";
    "datamanager.train_ray_generator.pose_optimizer.pose_adjustment";
    "datamanager.eval_camera_optimizer.pose_adjustment";
    "datamanager.eval_ray_generator.image_coords";
    "datamanager.eval_ray_generator.pose_optimizer.pose_adjustment" ].

(** The state handed to [self.load_state_dict]. [loaded_state] is given by
    its items, in the order of the dict. *)
Definition load_pipeline (test_mode : TestMode) (loaded_state : list (string * V))
  : gmap string V :=
  let state := rename_keys loaded_state in
  match test_mode with
  | Inference =>
      let state := pop "datamanager.train_camera_optimizer.pose_adjustment" state in
      let state := pop "datamanager.train_ray_generator.image_coords" state in
      let state :=
        pop "datamanager.train_ray_generator.pose_optimizer.pose_adjustment" state in
      let state := pop "datamanager.eval_camera_optimizer.pose_adjustment" state in
      let state := pop "datamanager.eval_ray_generator.image_coords" state in
      let state :=
        pop "datamanager.eval_ray_generator.pose_optimizer.pose_adjustment" state in
      state
  | _ => state
  end.

(** The reading of the specification: only a leading ["module."] is
    removed from a key. *)
Definition spec_strip_prefix (key : string) : string :=
  if String.prefix "module." key
  then String.substring 7 (String.length key - 7) key
  else key.

Definition spec_rename_keys (items : list (string * V)) : gmap string V :=
  foldl (fun state kv => <[spec_strip_prefix kv.1 := kv.2]> state) ∅ items.

Definition spec_load_pipeline (test_mode : TestMode) (loaded_state : list (string * V))
  : gmap string V :=
  let state := spec_rename_keys loaded_state in
  match test_mode with
  | Inference => foldr pop state inference_pruned
  | _ => state
  end.

End LoadPipeline.

(** ** Configuration ([VanillaPipelineConfig]) *)

Record VanillaPipelineConfig : Type := {
  (** [config.datamanager.camera_optimizer.param_group] *)
  camera_optimizer_param_group : string;
  eval_optimize_cameras : bool;
  eval_num_pose_iters : Z;
  eval_optimize_appearance : bool;
  eval_num_appearance_iters : Z;
  eval_image_scale_factor : Qc
}.

(** ** The mutable state of a pipeline *)

(** A [DistributedSampler]: [set_epoch] stores the epoch. *)
Record Sampler : Type := { epoch : Z }.

(** Modelled from the spec: [Cameras] is missing from the sources. The spec
    speaks of "the resolution scale factor applied to the camera", which
    [cameras.rescale_output_resolution(factor)] multiplies by [factor]. *)
Record Cameras : Type := { resolution_scale : Qc }.

Definition rescale (factor : Qc) (c : Cameras) : Cameras :=
  {| resolution_scale := (resolution_scale c * factor)%Qc |}.

Inductive Split : Type := TrainSplit | EvalSplit.

(** The calls the pipeline makes on its collaborators, in program order. *)
Inductive Event (RayBundle : Type) : Type :=
| SetEpoch (split : Split) (step : Z)
| NextTrain (step : Z)
| NextEval (step : Z)
| NextEvalImage (step : Z)
| GetEvalImage (idx : nat) (scale_factor : Qc)
| RescaleOutputResolution (factor : Qc)
| Forward (ray_bundle : RayBundle) (with_batch : bool)
| Render (ray_bundle : RayBundle) (grad : bool).
Arguments SetEpoch {RayBundle}.
Arguments NextTrain {RayBundle}.
Arguments NextEval {RayBundle}.
Arguments NextEvalImage {RayBundle}.
Arguments GetEvalImage {RayBundle}.
Arguments RescaleOutputResolution {RayBundle}.
Arguments Forward {RayBundle}.
Arguments Render {RayBundle}.

(** [World] holds what the collaborators own: the parameters of the model,
    the iterators of the data manager, the optimizer in use and the random
    generator. *)
Record Store (RayBundle World : Type) : Type := {
  (** [nn.Module.training], set by [self.train()] and [self.eval()] *)
  training : bool;
  (** [torch.is_grad_enabled()] *)
  grad_enabled : bool;
  (** [datamanager.train_sampler], [datamanager.eval_sampler] *)
  train_sampler : option Sampler;
  eval_sampler : option Sampler;
  (** [datamanager.eval_ray_generator.cameras] *)
  cameras : Cameras;
  (** number of calls of [time()] so far *)
  ticks : nat;
  world : World;
  trace : list (Event RayBundle)
}.
Arguments training {RayBundle World}.
Arguments grad_enabled {RayBundle World}.
Arguments train_sampler {RayBundle World}.
Arguments eval_sampler {RayBundle World}.
Arguments cameras {RayBundle World}.
Arguments ticks {RayBundle World}.
Arguments world {RayBundle World}.
Arguments trace {RayBundle World}.

Section StoreUpdates.
Context {RayBundle World : Type}.
Implicit Types st : Store RayBundle World.

Definition set_training (b : bool) st : Store RayBundle World :=
  {| training := b; grad_enabled := grad_enabled st;
     train_sampler := train_sampler st; eval_sampler := eval_sampler st;
     cameras := cameras st; ticks := ticks st; world := world st;
     trace := trace st |}.

Definition set_grad_enabled (b : bool) st : Store RayBundle World :=
  {| training := training st; grad_enabled := b;
     train_sampler := train_sampler st; eval_sampler := eval_sampler st;
     cameras := cameras st; ticks := ticks st; world := world st;
     trace := trace st |}.

Definition set_train_sampler (s : option Sampler) st : Store RayBundle World :=
  {| training := training st; grad_enabled := grad_enabled st;
     train_sampler := s; eval_sampler := eval_sampler st;
     cameras := cameras st; ticks := ticks st; world := world st;
     trace := trace st |}.

Definition set_eval_sampler (s : option Sampler) st : Store RayBundle World :=
  {| training := training st; grad_enabled := grad_enabled st;
     train_sampler := train_sampler st; eval_sampler := s;
     cameras := cameras st; ticks := ticks st; world := world st;
     trace := trace st |}.

Definition set_cameras (c : Cameras) st : Store RayBundle World :=
  {| training := training st; grad_enabled := grad_enabled st;
     train_sampler := train_sampler st; eval_sampler := eval_sampler st;
     cameras := c; ticks := ticks st; world := world st;
     trace := trace st |}.

Definition set_ticks (n : nat) st : Store RayBundle World :=
  {| training := training st; grad_enabled := grad_enabled st;
     train_sampler := train_sampler st; eval_sampler := eval_sampler st;
     cameras := cameras st; ticks := n; world := world st;
     trace := trace st |}.

Definition set_world (w : World) st : Store RayBundle World :=
  {| training := training st; grad_enabled := grad_enabled st;
     train_sampler := train_sampler st; eval_sampler := eval_sampler st;
     cameras := cameras st; ticks := ticks st; world := w;
     trace := trace st |}.

Definition log (e : Event RayBundle) st : Store RayBundle World :=
  {| training := training st; grad_enabled := grad_enabled st;
     train_sampler := train_sampler st; eval_sampler := eval_sampler st;
     cameras := cameras st; ticks := ticks st; world := world st;
     trace := trace st ++ [e] |}.

End StoreUpdates.

(** ** The monad of pipeline methods: state and exceptions *)

Definition M (S A : Type) : Type := S -> result (A * S).

Section Monad.
Context {S : Type}.

Definition ret {A} (a : A) : M S A := fun st => Ok (a, st).

Definition bind {A B} (m : M S A) (k : A -> M S B) : M S B :=
  fun st =>
    match m st with
    | Ok (a, st') => k a st'
    | Raise e => Raise e
    end.

Definition raise {A} (e : exn) : M S A := fun _ => Raise e.

Definition gets {A} (f : S -> A) : M S A := fun st => Ok (f st, st).

Definition modify (f : S -> S) : M S unit := fun st => Ok (tt, f st).

(** [assert cond] *)
Definition assert (cond : bool) : M S unit :=
  if cond then ret tt else raise AssertionError.

(** [d[key]] *)
Definition getitem {V} (d : gmap string V) (key : string) : M S V :=
  match d !! key with
  | Some v => ret v
  | None => raise (KeyError key)
  end.

(** [a / b] on floats *)
Definition truediv (a b : Qc) : M S Qc :=
  if Qeq_bool (this b) 0 then raise ZeroDivisionError
  else ret (a / b)%Qc.

(** [for _ in range(n): body], with the variables the body assigns
    threaded through the loop. *)
Fixpoint iterate {A} (n : nat) (body : A -> M S A) (a : A) : M S A :=
  match n with
  | O => ret a
  | Datatypes.S n' => bind (body a) (iterate n' body)
  end.

Definition for_range {A} (n : Z) (body : A -> M S A) (a : A) : M S A :=
  iterate (Z.to_nat n) body a.

(** [for idx in range(n): acc = body(idx, acc)] *)
Fixpoint for_each {A} (idxs : list nat) (body : nat -> A -> M S A) (a : A)
  : M S A :=
  match idxs with
  | [] => ret a
  | idx :: rest => bind (body idx a) (for_each rest body)
  end.

Definition lift {A} (r : result A) : M S A :=
  fun st => match r with Ok a => Ok (a, st) | Raise e => Raise e end.

End Monad.

#[global] Instance M_bind {S} : MBind (M S) := fun A B k m => bind m k.
#[global] Instance M_ret {S} : MRet (M S) := fun A a => ret a.

(** Exceptions alone, for the code that touches no state. *)
#[global] Instance result_bind : MBind result :=
  fun A B k r => match r with Ok a => k a | Raise e => Raise e end.
#[global] Instance result_ret : MRet result := fun A a => Ok a.

(** ** The collaborators of the pipeline

    The data manager, the model and the torch functions are not part of the
    pipeline: they are taken as parameters. Their calls are assumed to
    return; the exceptions of the embedding are the ones the pipeline's own
    code raises. *)

Definition Qc_of_nat (n : nat) : Qc := Q2Qc (inject_Z (Z.of_nat n)).

Record Collaborators (Tensor RayBundle World : Type) : Type := {
  (** [camera_ray_bundle.shape] and [len(camera_ray_bundle)] *)
  shape : RayBundle -> nat * nat;
  len : RayBundle -> nat;
  (** [time()], by the number of earlier calls *)
  clock : nat -> Qc;
  (** [random.choice([0, 1])] *)
  random_choice : World -> nat * World;

  (** the data manager *)
  next_train : Z -> option Sampler -> World -> RayBundle * gmap string Tensor * World;
  next_eval : Z -> option Sampler -> World -> RayBundle * gmap string Tensor * World;
  next_eval_image : Z -> World -> nat * RayBundle * gmap string Tensor * World;
  (** [get_eval_image(idx, scale_factor)]; without [scale_factor] the
      default is [1.0] *)
  get_eval_image : nat -> Qc -> Cameras -> World -> RayBundle * gmap string Tensor;
  (** [len(datamanager.eval_dataset)] *)
  eval_dataset_len : World -> nat;
  (** [eval_camera_optimizer.initialize_parameters()] *)
  initialize_parameters : World -> World;
  dm_get_param_groups : World -> gmap string (list Tensor);

  (** the model; [forward] and the renderer see the training flag *)
  forward : World -> bool -> RayBundle -> option (gmap string Tensor) -> gmap string Tensor;
  get_metrics_dict : World -> gmap string Tensor -> gmap string Tensor -> gmap string Qc;
  get_loss_dict :
    World -> gmap string Tensor -> gmap string Tensor -> gmap string Qc -> gmap string Tensor;
  get_outputs_for_camera_ray_bundle : World -> bool -> RayBundle -> gmap string Tensor;
  get_image_metrics_and_images :
    World -> gmap string Tensor -> gmap string Tensor -> gmap string Qc * gmap string Tensor;
  (** [model.field.initialize_embedding_appearance_eval()],
      [model.field.embedding_appearance_eval.parameters()] and
      [model.field.embedding_appearance_eval = None] *)
  initialize_embedding_appearance_eval : World -> World;
  embedding_appearance_eval_parameters : World -> list Tensor;
  discard_embedding_appearance_eval : World -> World;

  (** torch: [torch.optim.Adam(params, lr=1e-3, eps=1e-15)],
      [optimizer.zero_grad()], [loss.backward(); optimizer.step()] *)
  adam : list Tensor -> World -> World;
  zero_grad : World -> World;
  backward_step : Tensor -> World -> World;
  (** [MSELoss()(a, b)], [t[:, :n]], [t[:, n:]], [torch.stack(ts, dim=0)] *)
  mse_loss : Tensor -> Tensor -> Tensor;
  cols_to : nat -> Tensor -> Tensor;
  cols_from : nat -> Tensor -> Tensor;
  stack : list Tensor -> Tensor;
  (** [p.data[:, :3].norm()] and [p.data[:, 3:].norm()] *)
  translation_norm : Tensor -> Qc;
  rotation_norm : Tensor -> Qc
}.
Arguments shape {Tensor RayBundle World}.
Arguments len {Tensor RayBundle World}.
Arguments clock {Tensor RayBundle World}.
Arguments random_choice {Tensor RayBundle World}.
Arguments next_train {Tensor RayBundle World}.
Arguments next_eval {Tensor RayBundle World}.
Arguments next_eval_image {Tensor RayBundle World}.
Arguments get_eval_image {Tensor RayBundle World}.
Arguments eval_dataset_len {Tensor RayBundle World}.
Arguments initialize_parameters {Tensor RayBundle World}.
Arguments dm_get_param_groups {Tensor RayBundle World}.
Arguments forward {Tensor RayBundle World}.
Arguments get_metrics_dict {Tensor RayBundle World}.
Arguments get_loss_dict {Tensor RayBundle World}.
Arguments get_outputs_for_camera_ray_bundle {Tensor RayBundle World}.
Arguments get_image_metrics_and_images {Tensor RayBundle World}.
Arguments initialize_embedding_appearance_eval {Tensor RayBundle World}.
Arguments embedding_appearance_eval_parameters {Tensor RayBundle World}.
Arguments discard_embedding_appearance_eval {Tensor RayBundle World}.
Arguments adam {Tensor RayBundle World}.
Arguments zero_grad {Tensor RayBundle World}.
Arguments backward_step {Tensor RayBundle World}.
Arguments mse_loss {Tensor RayBundle World}.
Arguments cols_to {Tensor RayBundle World}.
Arguments cols_from {Tensor RayBundle World}.
Arguments stack {Tensor RayBundle World}.
Arguments translation_norm {Tensor RayBundle World}.
Arguments rotation_norm {Tensor RayBundle World}.

(** ** The calls of the pipeline on [self] and on its collaborators *)

Section Calls.
Context {Tensor RayBundle World : Type}.
Context (env : Collaborators Tensor RayBundle World).

Abbreviation Act := (M (Store RayBundle World)).

(** [self.train()] and [self.eval()] *)
Definition train : Act unit := modify (set_training true).
Definition eval : Act unit := modify (set_training false).

(** [with torch.no_grad(): body]; the previous setting comes back when
    the block is left. *)
Definition no_grad {A} (body : Act A) : Act A :=
  fun st =>
    match body (set_grad_enabled false st) with
    | Ok (a, st') => Ok (a, set_grad_enabled (grad_enabled st) st')
    | Raise e => Raise e
    end.

Definition time : Act Qc :=
  fun st => Ok (clock env (ticks st), set_ticks (S (ticks st)) st).

Definition choose_side : Act nat :=
  fun st =>
    let '(side, w) := random_choice env (world st) in
    Ok (side, set_world w st).

Definition update_world (f : World -> World) : Act unit :=
  modify (fun st => set_world (f (world st)) st).

(** [datamanager.train_sampler.set_epoch(step)] behind its guard
    [assert datamanager.train_sampler is not None] *)
Definition train_sampler_set_epoch (step : Z) : Act unit :=
  sampler ← gets train_sampler;
  assert (bool_decide (is_Some sampler));;
  modify (fun st =>
    log (SetEpoch TrainSplit step) (set_train_sampler (Some {| epoch := step |}) st)).

Definition eval_sampler_set_epoch (step : Z) : Act unit :=
  sampler ← gets eval_sampler;
  assert (bool_decide (is_Some sampler));;
  modify (fun st =>
    log (SetEpoch EvalSplit step) (set_eval_sampler (Some {| epoch := step |}) st)).

Definition dm_next_train (step : Z) : Act (RayBundle * gmap string Tensor) :=
  fun st =>
    let '(ray_bundle, batch, w) := next_train env step (train_sampler st) (world st) in
    Ok ((ray_bundle, batch), log (NextTrain step) (set_world w st)).

Definition dm_next_eval (step : Z) : Act (RayBundle * gmap string Tensor) :=
  fun st =>
    let '(ray_bundle, batch, w) := next_eval env step (eval_sampler st) (world st) in
    Ok ((ray_bundle, batch), log (NextEval step) (set_world w st)).

Definition dm_next_eval_image (step : Z)
  : Act (nat * RayBundle * gmap string Tensor) :=
  fun st =>
    let '(image_idx, ray_bundle, batch, w) := next_eval_image env step (world st) in
    Ok ((image_idx, ray_bundle, batch), log (NextEvalImage step) (set_world w st)).

Definition dm_get_eval_image (idx : nat) (scale_factor : Qc)
  : Act (RayBundle * gmap string Tensor) :=
  fun st =>
    Ok (get_eval_image env idx scale_factor (cameras st) (world st),
        log (GetEvalImage idx scale_factor) st).

(** [datamanager.eval_ray_generator.cameras.rescale_output_resolution(factor)] *)
Definition rescale_output_resolution (factor : Qc) : Act unit :=
  modify (fun st =>
    log (RescaleOutputResolution factor) (set_cameras (rescale factor (cameras st)) st)).

(** [self.model(ray_bundle)] and [self.model(ray_bundle, batch)] *)
Definition model_call (ray_bundle : RayBundle) (batch : option (gmap string Tensor))
  : Act (gmap string Tensor) :=
  fun st =>
    Ok (forward env (world st) (training st) ray_bundle batch,
        log (Forward ray_bundle (bool_decide (is_Some batch))) st).

(** [self.model.get_outputs_for_camera_ray_bundle(camera_ray_bundle)] *)
Definition render (camera_ray_bundle : RayBundle) : Act (gmap string Tensor) :=
  fun st =>
    Ok (get_outputs_for_camera_ray_bundle env (world st) (training st) camera_ray_bundle,
        log (Render camera_ray_bundle (grad_enabled st)) st).

End Calls.

(** ** [Pipeline]: the base class *)

Module Pipeline.
Section Methods.
Context {Tensor RayBundle World : Type}.
Context (env : Collaborators Tensor RayBundle World).
(** [self.world_size] *)
Context (world_size : Z).

Abbreviation Act := (M (Store RayBundle World)).

(** [Pipeline.get_train_loss_dict]; [step] is an [int], zero is false. *)
Definition get_train_loss_dict (step : Z)
  : Act (gmap string Tensor * gmap string Tensor * gmap string Qc) :=
  (if bool_decide (1 < world_size)%Z && negb (step =? 0)%Z
   then train_sampler_set_epoch step
   else mret tt);;
  '(ray_bundle, batch) ← dm_next_train env step;
  model_outputs ← model_call env ray_bundle (Some batch);
  w ← gets world;
  let metrics_dict := get_metrics_dict env w model_outputs batch in
  let loss_dict := get_loss_dict env w model_outputs batch metrics_dict in
  mret (model_outputs, loss_dict, metrics_dict).

(** [Pipeline.get_eval_loss_dict] *)
Definition get_eval_loss_dict (step : Z)
  : Act (gmap string Tensor * gmap string Tensor * gmap string Qc) :=
  eval;;
  (if bool_decide (1 < world_size)%Z
   then eval_sampler_set_epoch step
   else mret tt);;
  '(ray_bundle, batch) ← dm_next_eval env step;
  model_outputs ← model_call env ray_bundle (Some batch);
  w ← gets world;
  let metrics_dict := get_metrics_dict env w model_outputs batch in
  let loss_dict := get_loss_dict env w model_outputs batch metrics_dict in
  train;;
  mret (model_outputs, loss_dict, metrics_dict).

End Methods.
End Pipeline.

(** ** The aggregation at the end of the dataset pass *)

Section Aggregation.
Context {Tensor : Type}.

(** [lst[0]] *)
Definition first {A} (lst : list A) : result A :=
  match lst with
  | [] => Raise IndexError
  | x :: _ => Ok x
  end.

(** [d[key]] outside the state monad *)
Definition lookup_key {V} (key : string) (d : gmap string V) : result V :=
  match d !! key with
  | Some v => Ok v
  | None => Raise (KeyError key)
  end.

(** [[d[key] for d in dicts]] *)
Fixpoint column {V} (key : string) (dicts : list (gmap string V)) : result (list V) :=
  match dicts with
  | [] => Ok []
  | d :: rest =>
      v ← lookup_key key d;
      vs ← column key rest;
      mret (v :: vs)
  end.

Definition Qc_sum (values : list Qc) : Qc := foldr Qcplus (Q2Qc 0) values.

(** [float(torch.mean(torch.tensor(values)))] *)
Definition mean (values : list Qc) : Qc :=
  (Qc_sum values / Qc_of_nat (length values))%Qc.

(** [for key in keys: out[key] = reduce([d[key] for d in dicts])] *)
Fixpoint reduce_keys {V R} (reduce : list V -> R) (dicts : list (gmap string V))
    (keys : list string) (out : gmap string R) : result (gmap string R) :=
  match keys with
  | [] => Ok out
  | key :: rest =>
      values ← column key dicts;
      reduce_keys reduce dicts rest (<[key := reduce values]> out)
  end.

(** [d.keys()]; the order is the one of the finite map, not the insertion
    order of the Python dict: the two differ only in which missing key a
    [KeyError] names. *)
Definition keys {V} (d : gmap string V) : list string := (map_to_list d).*1.

(** Lines 547-559: the mean of every key of the first dict. *)
Definition average_metrics (metrics_dict_list : list (gmap string Qc))
  : result (gmap string Qc) :=
  d0 ← first metrics_dict_list;
  reduce_keys mean metrics_dict_list (keys d0) ∅.

(** Lines 560-565: the stack of every key of the first images dict. *)
Definition stack_images (stack : list Tensor -> Tensor)
    (images_dict_list : list (gmap string Tensor)) : result (gmap string Tensor) :=
  d0 ← first images_dict_list;
  reduce_keys stack images_dict_list (keys d0) ∅.

End Aggregation.

(** ** [VanillaPipeline] *)

Module VanillaPipeline.
Section Methods.
Context {Tensor RayBundle World : Type}.
Context (env : Collaborators Tensor RayBundle World).
(** [self.config] *)
Context (config : VanillaPipelineConfig).

Abbreviation Act := (M (Store RayBundle World)).

(** [key in d] *)
Definition contains {V} (key : string) (d : gmap string V) : bool :=
  bool_decide (is_Some (d !! key)).

(** [VanillaPipeline.get_train_loss_dict] *)
Definition get_train_loss_dict (step : Z)
  : Act (gmap string Tensor * gmap string Tensor * gmap string Qc) :=
  '(ray_bundle, batch) ← dm_next_train env step;
  model_outputs ← model_call env ray_bundle None;
  w ← gets world;
  let metrics_dict := get_metrics_dict env w model_outputs batch in
  let camera_opt_param_group := camera_optimizer_param_group config +:+ "_train" in
  metrics_dict ←
    (if contains camera_opt_param_group (dm_get_param_groups env w)
     then
       group ← getitem (dm_get_param_groups env w) camera_opt_param_group;
       p ← lift (first group);
       let metrics_dict :=
         <["camera_opt_translation" := translation_norm env p]> metrics_dict in
       group ← getitem (dm_get_param_groups env w) camera_opt_param_group;
       p ← lift (first group);
       mret (<["camera_opt_rotation" := rotation_norm env p]> metrics_dict)
     else mret metrics_dict);
  let loss_dict := get_loss_dict env w model_outputs batch metrics_dict in
  mret (model_outputs, loss_dict, metrics_dict).

(** [VanillaPipeline.get_eval_loss_dict] *)
Definition get_eval_loss_dict (step : Z)
  : Act (gmap string Tensor * gmap string Tensor * gmap string Qc) :=
  eval;;
  '(ray_bundle, batch) ← dm_next_eval env step;
  model_outputs ← model_call env ray_bundle None;
  w ← gets world;
  let metrics_dict := get_metrics_dict env w model_outputs batch in
  let loss_dict := get_loss_dict env w model_outputs batch metrics_dict in
  train;;
  mret (model_outputs, loss_dict, metrics_dict).

(** [VanillaPipeline.get_eval_image_metrics_and_images] *)
Definition get_eval_image_metrics_and_images (step : Z)
  : Act (gmap string Qc * gmap string Tensor) :=
  eval;;
  '(image_idx, camera_ray_bundle, batch) ← dm_next_eval_image env step;
  '(metrics_dict, images_dict) ←
    no_grad (
      outputs ← render env camera_ray_bundle;
      w ← gets world;
      mret (get_image_metrics_and_images env w outputs batch));
  assert (negb (contains "image_idx" metrics_dict));;
  let metrics_dict := <["image_idx" := Qc_of_nat image_idx]> metrics_dict in
  assert (negb (contains "num_rays" metrics_dict));;
  let metrics_dict := <["num_rays" := Qc_of_nat (len env camera_ray_bundle)]> metrics_dict in
  train;;
  mret (metrics_dict, images_dict).

(** *** [get_average_eval_image_metrics], one image *)

(** Lines 399-460, the block under [if self.config.eval_optimize_cameras].
    It assigns [camera_ray_bundle] and [batch] in its loop. *)
Definition optimize_cameras (idx : nat) (current : RayBundle * gmap string Tensor)
  : Act (RayBundle * gmap string Tensor) :=
  let camera_opt_param_group := camera_optimizer_param_group config +:+ "_eval" in
  update_world (initialize_parameters env);;
  param_groups ← gets (fun st => dm_get_param_groups env (world st));
  group ← getitem param_groups camera_opt_param_group;
  update_world (adam env group);;
  rescale_output_resolution (eval_image_scale_factor config);;
  train;;
  current ←
    for_range (eval_num_pose_iters config)
      (fun _ : RayBundle * gmap string Tensor =>
         update_world (zero_grad env);;
         '(camera_ray_bundle, batch) ←
           dm_get_eval_image env idx (eval_image_scale_factor config);
         outputs ← render env camera_ray_bundle;
         w ← gets world;
         let metrics_dict := get_metrics_dict env w outputs batch in
         let loss_dict := get_loss_dict env w outputs batch metrics_dict in
         loss ← getitem loss_dict "rgb_loss";
         update_world (backward_step env loss);;
         mret (camera_ray_bundle, batch))
      current;
  factor ← truediv (Q2Qc 1) (eval_image_scale_factor config);
  rescale_output_resolution factor;;
  eval;;
  mret current.

(** Lines 462-525, the block under [if self.config.eval_optimize_appearance];
    [width] is the width of the bundle fetched at the start. *)
Definition optimize_appearance (idx width : nat)
    (current : RayBundle * gmap string Tensor)
  : Act (RayBundle * gmap string Tensor) :=
  rescale_output_resolution (eval_image_scale_factor config);;
  train;;
  update_world (initialize_embedding_appearance_eval env);;
  appearance_parameters ←
    gets (fun st => embedding_appearance_eval_parameters env (world st));
  update_world (adam env appearance_parameters);;
  side ← choose_side env;
  let half_width := (width / 2)%nat in
  current ←
    for_range (eval_num_appearance_iters config)
      (fun _ : RayBundle * gmap string Tensor =>
         update_world (zero_grad env);;
         '(camera_ray_bundle, batch) ←
           dm_get_eval_image env idx (eval_image_scale_factor config);
         outputs ← render env camera_ray_bundle;
         w ← gets world;
         let metrics_dict := get_metrics_dict env w outputs batch in
         image ← getitem batch "image";
         rgb ← getitem outputs "rgb";
         let loss :=
           if (side =? 0)%nat
           then mse_loss env (cols_to env half_width image) (cols_to env half_width rgb)
           else mse_loss env (cols_from env half_width image)
                  (cols_from env half_width rgb) in
         update_world (backward_step env loss);;
         mret (camera_ray_bundle, batch))
      current;
  factor ← truediv (Q2Qc 1) (eval_image_scale_factor config);
  rescale_output_resolution factor;;
  update_world (discard_embedding_appearance_eval env);;
  eval;;
  mret current.

(** Lines 527-543: the render under [torch.no_grad()] and the two keys
    added to its metrics. *)
Definition final_metrics (inner_start : Qc) (height width num_rays : nat)
    (current : RayBundle * gmap string Tensor)
  : Act (gmap string Qc * gmap string Tensor) :=
  let '(camera_ray_bundle, batch) := current in
  '(metrics_dict, images_dict) ←
    no_grad (
      outputs ← render env camera_ray_bundle;
      w ← gets world;
      mret (get_image_metrics_and_images env w outputs batch));
  assert (negb (contains "num_rays_per_sec" metrics_dict));;
  now ← time env;
  num_rays_per_sec ← truediv (Qc_of_nat num_rays) (now - inner_start)%Qc;
  let metrics_dict := <["num_rays_per_sec" := num_rays_per_sec]> metrics_dict in
  let fps_str := "fps" in
  assert (negb (contains fps_str metrics_dict));;
  v ← getitem metrics_dict "num_rays_per_sec";
  fps ← truediv v (Qc_of_nat (height * width));
  let metrics_dict := <[fps_str := fps]> metrics_dict in
  mret (metrics_dict, images_dict).

(** Lines 392-545: the body of [for idx in range(num_images)], without
    the two [append]s. *)
Definition eval_image (idx : nat) : Act (gmap string Qc * gmap string Tensor) :=
  current ← dm_get_eval_image env idx (Q2Qc 1);
  inner_start ← time env;
  let '(height, width) := shape env current.1 in
  let num_rays := (height * width)%nat in
  current ←
    (if eval_optimize_cameras config then optimize_cameras idx current
     else mret current);
  current ←
    (if eval_optimize_appearance config then optimize_appearance idx width current
     else mret current);
  final_metrics inner_start height width num_rays current.

(** [VanillaPipeline.get_average_eval_image_metrics]; [step] is not used. *)
Definition get_average_eval_image_metrics (step : option Z) (return_imgs : bool)
  : Act (gmap string Qc * option (gmap string Tensor)) :=
  eval;;
  num_images ← gets (fun st => eval_dataset_len env (world st));
  '(metrics_dict_list, images_dict_list) ←
    for_each (seq 0 num_images)
      (fun idx '(metrics_dict_list, images_dict_list) =>
         '(metrics_dict, images_dict) ← eval_image idx;
         mret (metrics_dict_list ++ [metrics_dict], images_dict_list ++ [images_dict]))
      ([], []);
  metrics_dict ← lift (average_metrics metrics_dict_list);
  images_dict ← lift (stack_images (stack env) images_dict_list);
  train;;
  if negb return_imgs then mret (metrics_dict, None)
  else mret (metrics_dict, Some images_dict).

End Methods.
End VanillaPipeline.

(** ** A small data manager and model on which the pipeline runs

    Two evaluation images of 8 by 8 rays; a ray bundle is its shape, a
    tensor is a number, the clock advances by one second per reading. *)

Module Fixture.

Definition scaled (n : nat) (scale_factor : Qc) : nat :=
  Z.to_nat (Qfloor (this (Qc_of_nat n * scale_factor)%Qc)).

(** Modelled from the spec: [DataManager.get_eval_image] is missing from
    the sources. The spec has [get_eval_image(idx, scale_factor=1.0)]
    return the rays and the batch of image [idx] "at the scaled
    resolution". The batch holds the image, here its index. *)
Definition fetch (idx : nat) (scale_factor : Qc) (c : Cameras) (w : unit)
  : (nat * nat) * gmap string nat :=
  ((scaled 8 scale_factor, scaled 8 scale_factor), {[ "image" := idx ]}).

(** The model reports [metrics image] for the image of the batch. *)
Definition collaborators (metrics : nat -> gmap string Qc)
  : Collaborators nat (nat * nat) unit :=
  {| shape := fun b => b;
     len := fun b => (b.1 * b.2)%nat;
     clock := Qc_of_nat;
     random_choice := fun w => (0%nat, w);
     next_train := fun step sampler w => ((8, 8)%nat, {[ "image" := 0%nat ]}, w);
     next_eval := fun step sampler w => ((8, 8)%nat, {[ "image" := 0%nat ]}, w);
     next_eval_image := fun step w => (0%nat, (8, 8)%nat, {[ "image" := 0%nat ]}, w);
     get_eval_image := fetch;
     eval_dataset_len := fun w => 2%nat;
     initialize_parameters := fun w => w;
     dm_get_param_groups := fun w => {[ "camera_opt_eval" := [0%nat] ]};
     forward := fun w training b batch => {[ "rgb" := 0%nat ]};
     get_metrics_dict := fun w outputs batch => ∅;
     get_loss_dict := fun w outputs batch metrics => {[ "rgb_loss" := 0%nat ]};
     get_outputs_for_camera_ray_bundle := fun w training b => {[ "rgb" := 0%nat ]};
     get_image_metrics_and_images := fun w outputs batch =>
       (metrics (default 0%nat (batch !! "image")), {[ "img" := 0%nat ]});
     initialize_embedding_appearance_eval := fun w => w;
     embedding_appearance_eval_parameters := fun w => [];
     discard_embedding_appearance_eval := fun w => w;
     adam := fun params w => w;
     zero_grad := fun w => w;
     backward_step := fun loss w => w;
     mse_loss := fun a b => 0%nat;
     cols_to := fun n t => t;
     cols_from := fun n t => t;
     stack := fun ts => length ts;
     translation_norm := fun t => Q2Qc 0;
     rotation_norm := fun t => Q2Qc 0 |}.

(** Image A has psnr 20, image B psnr 30. *)
Definition psnr (image : nat) : gmap string Qc :=
  {[ "psnr" := Qc_of_nat (20 + 10 * image) ]}.

Definition config (cameras appearance : bool) (iters : Z) : VanillaPipelineConfig :=
  {| camera_optimizer_param_group := "camera_opt";
     eval_optimize_cameras := cameras;
     eval_num_pose_iters := iters;
     eval_optimize_appearance := appearance;
     eval_num_appearance_iters := iters;
     eval_image_scale_factor := Q2Qc (1 # 8) |}.

Definition sampler0 : option Sampler := Some {| epoch := 0 |}.

Definition store (mode : bool) (samplers : option Sampler) : Store (nat * nat) unit :=
  {| training := mode; grad_enabled := true;
     train_sampler := samplers; eval_sampler := samplers;
     cameras := {| resolution_scale := Q2Qc 1 |};
     ticks := 0; world := tt; trace := [] |}.

End Fixture.

(** The ray bundles rendered without gradient tracking, in program order. *)
Definition no_grad_renders {RayBundle} (events : list (Event RayBundle))
  : list RayBundle :=
  omap (fun e => match e with Render b false => Some b | _ => None end) events.

(** The factors of the calls of [rescale_output_resolution]. *)
Definition rescale_factors {RayBundle} (events : list (Event RayBundle)) : list Qc :=
  omap (fun e => match e with RescaleOutputResolution f => Some f | _ => None end)
    events.

(** ** Vocabulary of the properties *)

(** A relation between the store before and the store after holds across
    a computation that returns. *)
Definition preserves {S A} (R : relation S) (m : M S A) : Prop :=
  forall st a st', m st = Ok (a, st') -> R st st'.

Section Vocabulary.
Context {Tensor RayBundle World : Type}.
Context (env : Collaborators Tensor RayBundle World).
Implicit Types st : Store RayBundle World.

(** The cameras and the calls of [rescale_output_resolution] are the same
    before and after. *)
Definition same_cameras st st' : Prop :=
  cameras st' = cameras st
  /\ rescale_factors (trace st') = rescale_factors (trace st).

(** What the model reports for a bundle and a batch: the render followed by
    [get_image_metrics_and_images]. *)
Definition model_image_metrics (w : World) (mode : bool) (camera_ray_bundle : RayBundle)
    (batch : gmap string Tensor) : gmap string Qc * gmap string Tensor :=
  get_image_metrics_and_images env w
    (get_outputs_for_camera_ray_bundle env w mode camera_ray_bundle) batch.

(** The store after the final render of an image and the reading of the
    clock. *)
Definition after_final_metrics (camera_ray_bundle : RayBundle) st
  : Store RayBundle World :=
  set_ticks (S (ticks st))
    (set_grad_enabled (grad_enabled st)
       (log (Render camera_ray_bundle false) (set_grad_enabled false st))).

End Vocabulary.

(** ** More of the pipeline *)

(** [old in s] on strings. *)
Fixpoint occurs (old s : string) : bool :=
  match s with
  | EmptyString => String.prefix old EmptyString
  | String _ s' => String.prefix old s || occurs old s'
  end.

(** [{**a, **b}]: a new dict that receives the items of [a] and then the
    items of [b]. *)
Definition dict_unpack {V} (a b : gmap string V) : gmap string V :=
  map_fold (fun key value out => <[key := value]> out)
    (map_fold (fun key value out => <[key := value]> out) ∅ a) b.

(** [VanillaPipeline.get_param_groups]; [model_params] is
    [self.model.get_param_groups()]. *)
Definition get_param_groups {Tensor RayBundle World : Type}
    (env : Collaborators Tensor RayBundle World)
    (model_params : World -> gmap string (list Tensor)) (w : World)
  : gmap string (list Tensor) :=
  let datamanager_params := dm_get_param_groups env w in
  dict_unpack datamanager_params (model_params w).

(** The calls of [get_eval_image], with their index and scale factor. *)
Definition fetches {RayBundle} (events : list (Event RayBundle)) : list (nat * Qc) :=
  omap (fun e => match e with GetEvalImage idx f => Some (idx, f) | _ => None end)
    events.

(** The gradient setting and the clock are as before. *)
Definition quiet {RayBundle World} (st st' : Store RayBundle World) : Prop :=
  grad_enabled st' = grad_enabled st /\ ticks st' = ticks st.

(** The eval cameras and the gradient setting are as before. *)
Definition restored {RayBundle World} (st st' : Store RayBundle World) : Prop :=
  cameras st' = cameras st /\ grad_enabled st' = grad_enabled st.

(** What an image of the pass guarantees about its dict. *)
Definition image_dict_ok (config : VanillaPipelineConfig) (d : gmap string Qc) : Prop :=
  is_Some (d !! "num_rays_per_sec") /\ is_Some (d !! "fps")
  /\ (eval_optimize_cameras config || eval_optimize_appearance config = true ->
      eval_image_scale_factor config ≠ Q2Qc 0).

(** The body of the loop of [optimize_cameras], lines 430-455, and the one
    of the loop of [optimize_appearance], lines 483-517, by themselves. *)
Definition pose_iteration {Tensor RayBundle World : Type}
    (env : Collaborators Tensor RayBundle World) (config : VanillaPipelineConfig)
    (idx : nat) (_ : RayBundle * gmap string Tensor)
  : M (Store RayBundle World) (RayBundle * gmap string Tensor) :=
  update_world (zero_grad env);;
  '(camera_ray_bundle, batch) ←
    dm_get_eval_image env idx (eval_image_scale_factor config);
  outputs ← render env camera_ray_bundle;
  w ← gets world;
  let metrics_dict := get_metrics_dict env w outputs batch in
  let loss_dict := get_loss_dict env w outputs batch metrics_dict in
  loss ← getitem loss_dict "rgb_loss";
  update_world (backward_step env loss);;
  mret (camera_ray_bundle, batch).

Definition appearance_iteration {Tensor RayBundle World : Type}
    (env : Collaborators Tensor RayBundle World) (config : VanillaPipelineConfig)
    (idx side half_width : nat) (_ : RayBundle * gmap string Tensor)
  : M (Store RayBundle World) (RayBundle * gmap string Tensor) :=
  update_world (zero_grad env);;
  '(camera_ray_bundle, batch) ←
    dm_get_eval_image env idx (eval_image_scale_factor config);
  outputs ← render env camera_ray_bundle;
  w ← gets world;
  let metrics_dict := get_metrics_dict env w outputs batch in
  image ← getitem batch "image";
  rgb ← getitem outputs "rgb";
  let loss :=
    if (side =? 0)%nat
    then mse_loss env (cols_to env half_width image) (cols_to env half_width rgb)
    else mse_loss env (cols_from env half_width image)
           (cols_from env half_width rgb) in
  update_world (backward_step env loss);;
  mret (camera_ray_bundle, batch).

(** The collaborators with another dataset length, another clock or
    another [get_eval_image]. *)
Definition with_eval_dataset_len {Tensor RayBundle World : Type} (n : nat)
    (env : Collaborators Tensor RayBundle World)
  : Collaborators Tensor RayBundle World :=
  {| shape := shape env;
     len := len env;
     clock := clock env;
     random_choice := random_choice env;
     next_train := next_train env;
     next_eval := next_eval env;
     next_eval_image := next_eval_image env;
     get_eval_image := get_eval_image env;
     eval_dataset_len := fun _ => n;
     initialize_parameters := initialize_parameters env;
     dm_get_param_groups := dm_get_param_groups env;
     forward := forward env;
     get_metrics_dict := get_metrics_dict env;
     get_loss_dict := get_loss_dict env;
     get_outputs_for_camera_ray_bundle := get_outputs_for_camera_ray_bundle env;
     get_image_metrics_and_images := get_image_metrics_and_images env;
     initialize_embedding_appearance_eval := initialize_embedding_appearance_eval env;
     embedding_appearance_eval_parameters := embedding_appearance_eval_parameters env;
     discard_embedding_appearance_eval := discard_embedding_appearance_eval env;
     adam := adam env;
     zero_grad := zero_grad env;
     backward_step := backward_step env;
     mse_loss := mse_loss env;
     cols_to := cols_to env;
     cols_from := cols_from env;
     stack := stack env;
     translation_norm := translation_norm env;
     rotation_norm := rotation_norm env |}.

Definition with_clock {Tensor RayBundle World : Type} (readings : nat -> Qc)
    (env : Collaborators Tensor RayBundle World)
  : Collaborators Tensor RayBundle World :=
  {| shape := shape env;
     len := len env;
     clock := readings;
     random_choice := random_choice env;
     next_train := next_train env;
     next_eval := next_eval env;
     next_eval_image := next_eval_image env;
     get_eval_image := get_eval_image env;
     eval_dataset_len := eval_dataset_len env;
     initialize_parameters := initialize_parameters env;
     dm_get_param_groups := dm_get_param_groups env;
     forward := forward env;
     get_metrics_dict := get_metrics_dict env;
     get_loss_dict := get_loss_dict env;
     get_outputs_for_camera_ray_bundle := get_outputs_for_camera_ray_bundle env;
     get_image_metrics_and_images := get_image_metrics_and_images env;
     initialize_embedding_appearance_eval := initialize_embedding_appearance_eval env;
     embedding_appearance_eval_parameters := embedding_appearance_eval_parameters env;
     discard_embedding_appearance_eval := discard_embedding_appearance_eval env;
     adam := adam env;
     zero_grad := zero_grad env;
     backward_step := backward_step env;
     mse_loss := mse_loss env;
     cols_to := cols_to env;
     cols_from := cols_from env;
     stack := stack env;
     translation_norm := translation_norm env;
     rotation_norm := rotation_norm env |}.

Definition with_get_eval_image {Tensor RayBundle World : Type} (fetch : nat -> Qc -> Cameras -> World -> RayBundle * gmap string Tensor)
    (env : Collaborators Tensor RayBundle World)
  : Collaborators Tensor RayBundle World :=
  {| shape := shape env;
     len := len env;
     clock := clock env;
     random_choice := random_choice env;
     next_train := next_train env;
     next_eval := next_eval env;
     next_eval_image := next_eval_image env;
     get_eval_image := fetch;
     eval_dataset_len := eval_dataset_len env;
     initialize_parameters := initialize_parameters env;
     dm_get_param_groups := dm_get_param_groups env;
     forward := forward env;
     get_metrics_dict := get_metrics_dict env;
     get_loss_dict := get_loss_dict env;
     get_outputs_for_camera_ray_bundle := get_outputs_for_camera_ray_bundle env;
     get_image_metrics_and_images := get_image_metrics_and_images env;
     initialize_embedding_appearance_eval := initialize_embedding_appearance_eval env;
     embedding_appearance_eval_parameters := embedding_appearance_eval_parameters env;
     discard_embedding_appearance_eval := discard_embedding_appearance_eval env;
     adam := adam env;
     zero_grad := zero_grad env;
     backward_step := backward_step env;
     mse_loss := mse_loss env;
     cols_to := cols_to env;
     cols_from := cols_from env;
     stack := stack env;
     translation_norm := translation_norm env;
     rotation_norm := rotation_norm env |}.

(** The fixture with evaluation images of 4 by 4 rays at every scale and
    a clock that advances by half a second per reading. *)
Definition half_second_collaborators : Collaborators nat (nat * nat) unit :=
  with_clock (fun n => (Qc_of_nat n / Q2Qc 2)%Qc)
    (with_get_eval_image
       (fun idx scale_factor c w => ((4, 4)%nat, {[ "image" := idx ]}))
       (Fixture.collaborators Fixture.psnr)).

(** * Properties *)

(** Unfolding of the monad operations in proofs. *)
Ltac unfold_monad :=
  unfold mbind, M_bind, result_bind, bind, mret, M_ret, result_ret, ret, gets,
    modify, raise, lift in *.

(** ** [str.replace] and [load_pipeline] *)

Section LoadPipelineFacts.
Context {V : Type}.
Implicit Types (items : list (string * V)) (key : string).

Lemma prefix_append (p s : string) : String.prefix p (p +:+ s) = true.
Proof.
  induction p as [|a p IH]; simpl; [by destruct s|].
  destruct (Ascii.ascii_dec a a); [exact IH|done].
Qed.

Lemma replace_from_skip (old new p s : string) :
  Str.replace_from old new (String.length p) (p +:+ s)
  = Str.replace_from old new 0 s.
Proof. induction p as [|a p IH]; simpl; [by destruct s|exact IH]. Qed.

(** A leading occurrence is removed and the rest of the string is
    searched in turn. *)
Lemma replace_leading (old new s : string) :
  old ≠ EmptyString ->
  Str.replace old new (old +:+ s) = new +:+ Str.replace old new s.
Proof.
  destruct old as [|a old]; [done|intros _].
  unfold Str.replace.
  change (String a old +:+ s) with (String a (old +:+ s)).
  cbn [Str.replace_from].
  change (String a (old +:+ s)) with (String a old +:+ s).
  rewrite prefix_append.
  replace (String.length (String a old) - 1) with (String.length old)
    by (simpl; lia).
  by rewrite replace_from_skip.
Qed.

Lemma rename_keys_snoc items kv :
  rename_keys (items ++ [kv])
  = <[Str.replace "module." "" kv.1 := kv.2]> (rename_keys items).
Proof. unfold rename_keys. by rewrite foldl_app. Qed.

(** The value of a key is the one of the last item renamed to it. *)
Lemma rename_keys_lookup items key :
  rename_keys items !! key
  = snd <$> last (filter (fun kv => Str.replace "module." "" kv.1 = key) items).
Proof.
  induction items as [|kv items IH] using rev_ind; [done|].
  rewrite rename_keys_snoc, filter_app, lookup_insert.
  rewrite filter_cons, filter_nil.
  destruct (decide (Str.replace "module." "" kv.1 = key)) as [Heq|Hne].
  - by rewrite last_snoc.
  - by rewrite app_nil_r.
Qed.

Lemma load_pipeline_inference_lookup items key :
  load_pipeline Inference items !! key
  = if decide (key ∈ inference_pruned) then None else rename_keys items !! key.
Proof.
  unfold load_pipeline, pop, inference_pruned.
  destruct (decide _) as [Hin|Hout].
  - repeat (apply elem_of_cons in Hin as [->|Hin];
            [by repeat (rewrite lookup_delete_eq || rewrite lookup_delete_ne by done)|]).
    by apply elem_of_nil in Hin.
  - repeat (rewrite lookup_delete_ne;
            [|intros <-; apply Hout; set_solver]).
    done.
Qed.

End LoadPipelineFacts.

(** C6, as the code has it: every occurrence of ["module."] is removed from
    every key, a leading one included (a later item wins when two keys
    become equal), and in inference mode exactly the six bookkeeping keys
    are removed from the state handed to [load_state_dict]; in the other
    modes none is. The checkpoint of the scenario loads as [{"model.w": T}]. *)
Theorem load_pipeline_applied_state (items : list (string * nat)) (key s : string) :
  load_pipeline Inference items !! key
  = (if decide (key ∈ @inference_pruned) then None else rename_keys items !! key)
  /\ load_pipeline Test items = rename_keys items
  /\ load_pipeline Val items = rename_keys items
  /\ rename_keys items !! key
     = snd <$> last (filter (fun kv => Str.replace "module." "" kv.1 = key) items)
  /\ Str.replace "module." "" ("module." +:+ s) = Str.replace "module." "" s
  /\ load_pipeline Inference
       [("module.model.w", 1);
        ("datamanager.train_camera_optimizer.pose_adjustment", 2)]
     = {[ "model.w" := 1 ]}.
Proof.
  split; [apply load_pipeline_inference_lookup|].
  split; [done|]. split; [done|].
  split; [apply rename_keys_lookup|].
  split; [by rewrite replace_leading|].
  apply map_eq; intros k. rewrite load_pipeline_inference_lookup.
  destruct (decide (k ∈ inference_pruned)) as [Hin|Hout].
  - unfold inference_pruned in Hin.
    repeat (apply elem_of_cons in Hin as [->|Hin]; [done|]).
    by apply elem_of_nil in Hin.
  - rewrite rename_keys_lookup.
    destruct (decide (k = "model.w")) as [->|Hk]; [done|].
    rewrite lookup_singleton_ne by done.
    rewrite !filter_cons, filter_nil.
    destruct (decide _) as [E|_]; [by simpl in E|].
    destruct (decide _) as [E|_]; [|done].
    simpl in E. subst k. exfalso; apply Hout. set_solver.
Qed.

(** C6 as stated fails: an occurrence of ["module."] that is not at the
    start of the key is removed too, which the removal of a prefix leaves
    in place. *)
Lemma load_pipeline_strips_inner_module :
  load_pipeline Inference [("_model.module.field.w", 1)] !! "_model.module.field.w"
  = None
  /\ spec_load_pipeline Inference [("_model.module.field.w", 1)]
       !! "_model.module.field.w" = Some 1
  /\ load_pipeline Inference [("_model.module.field.w", 1)] !! "_model.field.w"
     = Some 1.
Proof. by vm_compute. Qed.

(** ** The aggregation *)

Section AggregationFacts.
Context {V R : Type}.
Implicit Types (d : gmap string V) (dicts : list (gmap string V)) (key : string).

Lemma elem_of_keys key d : key ∈ keys d <-> key ∈ dom d.
Proof.
  unfold keys. rewrite elem_of_dom, list_elem_of_fmap. split.
  - intros [[k v] [-> Hkv]]. apply elem_of_map_to_list in Hkv. by exists v.
  - intros [v Hv]. exists (key, v). split; [done|]. by apply elem_of_map_to_list.
Qed.

(** The column of a key is read exactly when every dict has the key. *)
Lemma column_Ok key dicts values :
  column key dicts = Ok values
  <-> Forall2 (fun d v => d !! key = Some v) dicts values.
Proof.
  revert values. induction dicts as [|d dicts IH]; intros values; simpl.
  - split; [intros [= <-]; constructor|by inversion 1].
  - unfold_monad. unfold lookup_key. split.
    + destruct (d !! key) as [v|] eqn:Hd; [|done].
      destruct (column key dicts) as [vs|] eqn:Hc; [|done].
      intros [= <-]. constructor; [done|]. by apply IH.
    + inversion 1 as [|? v ? vs Hd Hrest]; subst. rewrite Hd.
      apply IH in Hrest. by rewrite Hrest.
Qed.

Lemma column_Raise key dicts e :
  column key dicts = Raise e
  <-> e = KeyError key /\ exists d, d ∈ dicts /\ d !! key = None.
Proof.
  revert e. induction dicts as [|d dicts IH]; intros e; simpl.
  - split; [done|]. intros [_ (d & Hd & _)]. by apply elem_of_nil in Hd.
  - unfold_monad. unfold lookup_key.
    destruct (d !! key) as [v|] eqn:Hd.
    + destruct (column key dicts) as [vs|e'] eqn:Hc.
      * split; [done|]. intros [-> (d' & Hin & Hnone)].
        apply elem_of_cons in Hin as [->|Hin]; [congruence|].
        assert (Ok vs = Raise (KeyError key)) as Habs by (apply IH; eauto).
        done.
      * destruct (proj1 (IH e') eq_refl) as [-> (d' & Hin & Hnone)].
        split; [intros [= <-]|by intros [-> _]].
        split; [done|]. exists d'. split; [by apply elem_of_cons; right|done].
    + split; [intros [= <-]|by intros [-> _]].
      split; [done|]. exists d. split; [apply elem_of_cons; by left|done].
Qed.

Lemma column_total key dicts :
  (forall d, d ∈ dicts -> is_Some (d !! key)) ->
  exists values, column key dicts = Ok values.
Proof.
  intros Hall. destruct (column key dicts) as [vs|e] eqn:Hc; [by exists vs|].
  apply column_Raise in Hc as [_ (d & Hin & Hnone)].
  destruct (Hall d Hin) as [v Hv]. congruence.
Qed.

(** When every key is in every dict, the reduction gives each key the
    reduction of its column and leaves the other keys of [out] alone. *)
Lemma reduce_keys_Ok (reduce : list V -> R) dicts (ks : list string)
    (out : gmap string R) :
  (forall key d, key ∈ ks -> d ∈ dicts -> is_Some (d !! key)) ->
  exists m, reduce_keys reduce dicts ks out = Ok m
    /\ (forall key, key ∉ ks -> m !! key = out !! key)
    /\ (forall key values, key ∈ ks -> column key dicts = Ok values ->
          m !! key = Some (reduce values)).
Proof.
  revert out. induction ks as [|k ks IH]; intros out Hall; simpl.
  - exists out. split; [done|]. split; [done|]. intros ?? Hin. by apply elem_of_nil in Hin.
  - destruct (column_total k dicts) as [vs Hvs].
    { intros d Hd. apply Hall; [apply elem_of_cons; by left|done]. }
    unfold_monad. rewrite Hvs.
    destruct (IH (<[k := reduce vs]> out)) as (m & Hm & Hout & Hin).
    { intros key d Hkey Hd. apply Hall; [apply elem_of_cons; by right|done]. }
    exists m. split; [done|]. split.
    + intros key Hkey. rewrite Hout by (intros ?; apply Hkey, elem_of_cons; by right).
      apply lookup_insert_ne. intros ->. apply Hkey, elem_of_cons. by left.
    + intros key values Hkey Hcol.
      destruct (decide (key ∈ ks)) as [Hks|Hks]; [by apply Hin|].
      apply elem_of_cons in Hkey as [->|Hkey]; [|done].
      rewrite Hout by done. rewrite lookup_insert_eq. congruence.
Qed.

(** A key missing from one of the dicts stops the reduction with a
    [KeyError]. *)
Lemma reduce_keys_Raise (reduce : list V -> R) dicts (ks : list string)
    (out : gmap string R) key d :
  key ∈ ks -> d ∈ dicts -> d !! key = None ->
  exists key', key' ∈ ks /\ reduce_keys reduce dicts ks out = Raise (KeyError key').
Proof.
  revert out. induction ks as [|k ks IH]; intros out Hkey Hd Hnone; simpl.
  - by apply elem_of_nil in Hkey.
  - unfold_monad. destruct (column k dicts) as [vs|e] eqn:Hc.
    + apply elem_of_cons in Hkey as [->|Hkey].
      * assert (column k dicts = Raise (KeyError k)) as Habs
          by (apply column_Raise; eauto).
        congruence.
      * destruct (IH (<[k := reduce vs]> out) Hkey Hd Hnone) as (key' & Hin & ->).
        exists key'. split; [apply elem_of_cons; by right|done].
    + apply column_Raise in Hc as [-> _].
      exists k. split; [apply elem_of_cons; by left|done].
Qed.

End AggregationFacts.

Lemma average_metrics_cons (d0 : gmap string Qc) (rest : list (gmap string Qc)) :
  average_metrics (d0 :: rest) = reduce_keys mean (d0 :: rest) (keys d0) ∅.
Proof. done. Qed.

(** When every later dict has the keys of the first one, the aggregation
    returns a dict with the keys of the first one, each with the mean of
    its column. *)
Lemma average_metrics_Ok (d0 : gmap string Qc) (rest : list (gmap string Qc)) :
  (forall d, d ∈ rest -> dom d0 ⊆ dom d) ->
  exists m, average_metrics (d0 :: rest) = Ok m
    /\ dom m = dom d0
    /\ forall key, key ∈ dom d0 ->
         exists values,
           Forall2 (fun d v => d !! key = Some v) (d0 :: rest) values
           /\ m !! key = Some (mean values).
Proof.
  intros Hsub. rewrite average_metrics_cons.
  assert (forall key d, key ∈ keys d0 -> d ∈ d0 :: rest -> is_Some (d !! key)) as Hall.
  { intros key d Hkey Hd. apply elem_of_keys in Hkey. apply elem_of_dom.
    apply elem_of_cons in Hd as [->|Hd]; [done|]. by apply (Hsub d Hd). }
  destruct (reduce_keys_Ok mean (d0 :: rest) (keys d0) ∅ Hall) as (m & Hm & Hout & Hin).
  assert (forall key, key ∈ dom d0 ->
            exists values,
              Forall2 (fun d v => d !! key = Some v) (d0 :: rest) values
              /\ m !! key = Some (mean values)) as Hkeys.
  { intros key Hkey. apply elem_of_keys in Hkey.
    destruct (column_total key (d0 :: rest)) as [values Hcol];
      [intros d Hd; by apply Hall|].
    exists values. split; [by apply column_Ok|by apply Hin]. }
  exists m. split; [done|]. split; [|done].
  apply set_eq; intros key. split.
  - intros Hkey. destruct (decide (key ∈ keys d0)) as [Hk|Hk];
      [by apply elem_of_keys|].
    apply elem_of_dom in Hkey as [v Hv]. by rewrite (Hout key Hk) in Hv.
  - intros Hkey. destruct (Hkeys key Hkey) as (values & _ & Hv).
    apply elem_of_dom. by rewrite Hv.
Qed.



(** C5, as the code has it: the aggregation raises [IndexError] on the
    empty list and a [KeyError] when a key of the first dict is missing from
    another dict; when every key of the first dict is in all the dicts it
    returns the keys of the first dict, and a key that only later dicts have
    is left out without an error. *)
Theorem average_metrics_failures (d0 : gmap string Qc) (rest : list (gmap string Qc)) :
  average_metrics [] = Raise IndexError
  /\ ((exists key d, key ∈ dom d0 /\ d ∈ rest /\ key ∉ dom d) ->
      exists key, key ∈ dom d0 /\ average_metrics (d0 :: rest) = Raise (KeyError key))
  /\ ((forall d, d ∈ rest -> dom d0 ⊆ dom d) ->
      exists m, average_metrics (d0 :: rest) = Ok m /\ dom m = dom d0).
Proof.
  split; [done|]. split.
  - intros (key & d & Hkey & Hd & Hmiss). rewrite average_metrics_cons.
    destruct (reduce_keys_Raise mean (d0 :: rest) (keys d0) ∅ key d)
      as (key' & Hin & Hraise).
    + by apply elem_of_keys.
    + apply elem_of_cons. by right.
    + by apply not_elem_of_dom.
    + exists key'. split; [by apply elem_of_keys|done].
  - intros Hsub. destruct (average_metrics_Ok d0 rest Hsub) as (m & Hm & Hd & _).
    by exists m.
Qed.

(** C5 as stated fails: the second dict has a key the first one lacks, and
    the aggregation returns, without the key. *)
Lemma average_metrics_omits_later_key :
  dom ({[ "psnr" := Qc_of_nat 20 ]} : gmap string Qc)
  ≠ dom (<[ "ssim" := Qc_of_nat 1 ]> {[ "psnr" := Qc_of_nat 30 ]} : gmap string Qc)
  /\ exists m,
       average_metrics
         [ {[ "psnr" := Qc_of_nat 20 ]};
           <[ "ssim" := Qc_of_nat 1 ]> {[ "psnr" := Qc_of_nat 30 ]} ] = Ok m
       /\ m !! "ssim" = None
       /\ is_Some (m !! "psnr").
Proof.
  split.
  - intros Heq. assert ("ssim" ∈ dom ({[ "psnr" := Qc_of_nat 20 ]} : gmap string Qc))
      as Hin by (rewrite Heq; set_solver).
    rewrite dom_singleton_L in Hin. set_solver.
  - eexists. split; [vm_compute; reflexivity|]. split; [by vm_compute|].
    vm_compute. eauto.
Qed.

(** Both cases on two dicts: a key of the first dict missing from the
    second one, and the other way round. *)
Lemma average_metrics_failures_witness :
  (exists key, key ∈ dom (<[ "ssim" := Qc_of_nat 1 ]> {[ "psnr" := Qc_of_nat 30 ]}
                           : gmap string Qc)
     /\ average_metrics
          [ <[ "ssim" := Qc_of_nat 1 ]> {[ "psnr" := Qc_of_nat 30 ]};
            {[ "psnr" := Qc_of_nat 20 ]} ] = Raise (KeyError key))
  /\ (exists m,
        average_metrics
          [ {[ "psnr" := Qc_of_nat 20 ]};
            <[ "ssim" := Qc_of_nat 1 ]> {[ "psnr" := Qc_of_nat 30 ]} ] = Ok m
        /\ dom m = dom ({[ "psnr" := Qc_of_nat 20 ]} : gmap string Qc)).
Proof.
  split.
  - apply (average_metrics_failures
             (<[ "ssim" := Qc_of_nat 1 ]> {[ "psnr" := Qc_of_nat 30 ]})
             [ {[ "psnr" := Qc_of_nat 20 ]} ]).
    exists "ssim", {[ "psnr" := Qc_of_nat 20 ]}.
    split; [set_solver|]. split; [set_solver|]. rewrite dom_singleton_L. set_solver.
  - apply (average_metrics_failures
             {[ "psnr" := Qc_of_nat 20 ]}
             [ <[ "ssim" := Qc_of_nat 1 ]> {[ "psnr" := Qc_of_nat 30 ]} ]).
    intros d Hd. apply list_elem_of_singleton in Hd as ->.
    rewrite dom_insert_L, !dom_singleton_L. set_solver.
Defined.

(** ** Reasoning on the pipeline monad *)

Section MonadFacts.
Context {S : Type}.
Implicit Types st : S.

Lemma bind_Ok {A B} (m : M S A) (k : A -> M S B) st b st' :
  (m ≫= k) st = Ok (b, st') ->
  exists a st1, m st = Ok (a, st1) /\ k a st1 = Ok (b, st').
Proof.
  unfold_monad. destruct (m st) as [[a st1]|e]; [|done]. eauto.
Qed.


Lemma bind_Raise {A B} (m : M S A) (k : A -> M S B) st e :
  m st = Raise e -> (m ≫= k) st = Raise e.
Proof. unfold_monad. by intros ->. Qed.

Lemma getitem_Ok {V} (d : gmap string V) key st v st' :
  getitem d key st = Ok (v, st') -> d !! key = Some v /\ st' = st.
Proof. unfold getitem. destruct (d !! key); unfold_monad; [by intros [= -> ->]|done]. Qed.

Lemma assert_Ok (cond : bool) st u st' :
  assert cond st = Ok (u, st') -> cond = true /\ st' = st.
Proof. destruct cond; unfold assert; unfold_monad; [by intros [= _ ->]|done]. Qed.

Lemma truediv_Ok (a b : Qc) st q st' :
  truediv a b st = Ok (q, st') -> b ≠ Q2Qc 0 /\ q = (a / b)%Qc /\ st' = st.
Proof.
  unfold truediv. destruct (Qeq_bool (this b) 0) eqn:Hb; unfold_monad; [done|].
  intros [= <- <-]. split; [|done]. intros ->. by vm_compute in Hb.
Qed.


Lemma lift_Ok {A} (r : result A) st a st' :
  lift r st = Ok (a, st') -> r = Ok a /\ st' = st.
Proof. unfold lift. destruct r; [by intros [= -> ->]|done]. Qed.

(** What the last round of a loop of at least one round returns, under an
    invariant of the store. *)
Lemma iterate_last {A} (I : S -> Prop) (Q : A -> Prop) n (body : A -> M S A)
    a st a' st' :
  (forall a s a1 s1, I s -> body a s = Ok (a1, s1) -> Q a1 /\ I s1) ->
  I st ->
  iterate (Datatypes.S n) body a st = Ok (a', st') ->
  Q a'.
Proof.
  intros Hbody. revert a st. induction n as [|n IH]; intros a st Hst Hrun.
  - simpl in Hrun. unfold bind in Hrun.
    destruct (body a st) as [[a1 s1]|e] eqn:Hb; [|done].
    apply (Hbody a st a1 s1 Hst) in Hb as [Hq _].
    unfold ret in Hrun. by injection Hrun as <- _.
  - change (iterate (Datatypes.S (Datatypes.S n)) body a st)
      with (bind (body a) (iterate (Datatypes.S n) body) st) in Hrun.
    unfold bind in Hrun at 1.
    destruct (body a st) as [[a1 s1]|e] eqn:Hb; [|done].
    apply (Hbody a st a1 s1 Hst) in Hb as [_ Hs1].
    by apply (IH a1 s1).
Qed.

Context (R : relation S) `{!PreOrder R}.

Lemma preserves_ret {A} (a : A) : preserves R (mret a : M S A).
Proof. intros st a' st'. unfold_monad. by intros [= _ <-]. Qed.

Lemma preserves_bind {A B} (m : M S A) (k : A -> M S B) :
  preserves R m -> (forall a, preserves R (k a)) -> preserves R (m ≫= k).
Proof.
  intros Hm Hk st b st' Hrun.
  apply bind_Ok in Hrun as (a & st1 & H1 & H2).
  etrans; [by eapply Hm|by eapply Hk].
Qed.

Lemma preserves_gets {A} (f : S -> A) : preserves R (gets f).
Proof. intros st a st'. unfold_monad. by intros [= _ <-]. Qed.

Lemma preserves_getitem {V} (d : gmap string V) key : preserves R (getitem d key).
Proof. intros st v st' Hrun. by apply getitem_Ok in Hrun as [_ ->]. Qed.

Lemma preserves_assert cond : preserves R (assert cond).
Proof. intros st v st' Hrun. by apply assert_Ok in Hrun as [_ ->]. Qed.

Lemma preserves_truediv a b : preserves R (truediv a b).
Proof. intros st v st' Hrun. by apply truediv_Ok in Hrun as (_ & _ & ->). Qed.

Lemma preserves_lift {A} (r : result A) : preserves R (lift r).
Proof. intros st v st' Hrun. by apply lift_Ok in Hrun as [_ ->]. Qed.

Lemma preserves_modify (f : S -> S) :
  (forall st, R st (f st)) -> preserves R (modify f).
Proof. intros Hf st a st'. unfold_monad. intros [= _ <-]. apply Hf. Qed.

Lemma preserves_iterate {A} n (body : A -> M S A) a :
  (forall a, preserves R (body a)) -> preserves R (iterate n body a).
Proof.
  intros Hbody. revert a. induction n as [|n IH]; intros a; simpl.
  - apply (preserves_ret a).
  - apply (preserves_bind (body a) (iterate n body)); [apply Hbody|apply IH].
Qed.

Lemma preserves_for_each {A} idxs (body : nat -> A -> M S A) a :
  (forall idx a, preserves R (body idx a)) -> preserves R (for_each idxs body a).
Proof.
  intros Hbody. revert a. induction idxs as [|idx idxs IH]; intros a; simpl.
  - apply (preserves_ret a).
  - apply (preserves_bind (body idx a) (for_each idxs body)); [apply Hbody|apply IH].
Qed.

End MonadFacts.

(** ** The loss operations *)

Section LossFacts.
Context {Tensor RayBundle World : Type}.
Context (env : Collaborators Tensor RayBundle World).
Implicit Types st : Store RayBundle World.

(** [VanillaPipeline.get_eval_loss_dict] always returns, with the store
    it leaves. *)
Lemma vanilla_get_eval_loss_dict_run step st :
  exists r ray_bundle batch w,
    next_eval env step (eval_sampler st) (world st) = (ray_bundle, batch, w)
    /\ VanillaPipeline.get_eval_loss_dict env step st
       = Ok (r, set_training true
                  (log (Forward ray_bundle false)
                     (log (NextEval step) (set_world w (set_training false st))))).
Proof.
  unfold VanillaPipeline.get_eval_loss_dict, eval, train, dm_next_eval, model_call.
  unfold_monad. simpl.
  destruct (next_eval env step (eval_sampler st) (world st)) as [[rb batch] w].
  simpl. eauto 10.
Qed.

End LossFacts.

(** C3, as the code has it: [get_eval_loss_dict] returns with the model in
    trainable mode, whatever the mode before the call; the mode is the one
    before the call only for a model that starts in trainable mode. *)
Theorem get_eval_loss_dict_leaves_training {Tensor RayBundle World : Type}
    (env : Collaborators Tensor RayBundle World) (step : Z)
    (st : Store RayBundle World) :
  exists r st',
    VanillaPipeline.get_eval_loss_dict env step st = Ok (r, st')
    /\ training st' = true.
Proof.
  destruct (vanilla_get_eval_loss_dict_run env step st) as (r & rb & batch & w & _ & Hrun).
  by eexists _, _.
Qed.

(** C3 as stated fails: a model in inference mode before the call is in
    trainable mode after it. *)
Lemma get_eval_loss_dict_inference_not_restored :
  training (Fixture.store false None) = false
  /\ exists r st',
       VanillaPipeline.get_eval_loss_dict (Fixture.collaborators Fixture.psnr) 7
         (Fixture.store false None) = Ok (r, st')
       /\ training st' = true
       /\ training st' ≠ training (Fixture.store false None).
Proof.
  split; [done|]. eexists _, _. split; [vm_compute; reflexivity|]. by split.
Qed.

(** C4, as the code has it: with [world_size > 1] and the samplers set, the
    base [Pipeline.get_train_loss_dict] calls [set_epoch(step)] on the
    training sampler before it fetches the batch when [step] is not zero,
    and the base [Pipeline.get_eval_loss_dict] calls [set_epoch(step)] on
    the eval sampler before it fetches the batch; the two methods of
    [VanillaPipeline] fetch the batch without any [set_epoch]. *)
Theorem set_epoch_before_fetch {Tensor RayBundle World : Type}
    (env : Collaborators Tensor RayBundle World) (config : VanillaPipelineConfig)
    (world_size step : Z) (st : Store RayBundle World) (s_train s_eval : Sampler) :
  (1 < world_size)%Z ->
  train_sampler st = Some s_train ->
  eval_sampler st = Some s_eval ->
  (step ≠ 0%Z ->
   exists r st' ray_bundle,
     Pipeline.get_train_loss_dict env world_size step st = Ok (r, st')
     /\ trace st'
        = trace st ++ [SetEpoch TrainSplit step; NextTrain step; Forward ray_bundle true]
     /\ train_sampler st' = Some {| epoch := step |})
  /\ (exists r st' ray_bundle,
        Pipeline.get_eval_loss_dict env world_size step st = Ok (r, st')
        /\ trace st'
           = trace st ++ [SetEpoch EvalSplit step; NextEval step; Forward ray_bundle true]
        /\ eval_sampler st' = Some {| epoch := step |})
  /\ (forall r st',
        VanillaPipeline.get_train_loss_dict env config step st = Ok (r, st') ->
        exists ray_bundle,
          trace st' = trace st ++ [NextTrain step; Forward ray_bundle false]
          /\ train_sampler st' = train_sampler st)
  /\ (exists r st' ray_bundle,
        VanillaPipeline.get_eval_loss_dict env step st = Ok (r, st')
        /\ trace st' = trace st ++ [NextEval step; Forward ray_bundle false]
        /\ eval_sampler st' = eval_sampler st).
Proof.
  intros Hws Htrain Heval. repeat split.
  - intros Hstep.
    unfold Pipeline.get_train_loss_dict, train_sampler_set_epoch, dm_next_train,
      model_call.
    rewrite bool_decide_eq_true_2 by done.
    assert ((step =? 0)%Z = false) as -> by by apply Z.eqb_neq.
    unfold_monad. simpl. rewrite Htrain. simpl.
    destruct (next_train env step _ (world st)) as [[rb batch] w]. simpl.
    eexists _, _, rb. split; [done|]. simpl. split; [|done].
    by rewrite <- !app_assoc.
  - unfold Pipeline.get_eval_loss_dict, eval_sampler_set_epoch, dm_next_eval,
      model_call, eval, train.
    rewrite bool_decide_eq_true_2 by done.
    unfold_monad. simpl. rewrite Heval. simpl.
    destruct (next_eval env step _ (world st)) as [[rb batch] w]. simpl.
    eexists _, _, rb. split; [done|]. simpl. split; [|done].
    by rewrite <- !app_assoc.
  - intros r st'.
    unfold VanillaPipeline.get_train_loss_dict, dm_next_train, model_call.
    unfold_monad. simpl.
    destruct (next_train env step _ (world st)) as [[rb batch] w]. simpl.
    destruct (VanillaPipeline.contains _ _); simpl.
    + unfold getitem. destruct (_ !! _) as [group|]; unfold_monad; [|done].
      destruct (first group) as [p|]; [|done].
      intros [= _ <-]. exists rb. simpl. by rewrite <- !app_assoc.
    + intros [= _ <-]. exists rb. simpl. by rewrite <- !app_assoc.
  - destruct (vanilla_get_eval_loss_dict_run env step st)
      as (r & rb & batch & w & _ & Hrun).
    eexists r, _, rb. split; [exact Hrun|]. simpl. split; [|done].
    by rewrite <- !app_assoc.
Qed.

(** The base pipeline of two workers at step 5, with its samplers. *)
Lemma set_epoch_before_fetch_witness :
  (1 < 2)%Z
  /\ exists r st' ray_bundle,
       Pipeline.get_train_loss_dict (Fixture.collaborators Fixture.psnr) 2 5
         (Fixture.store true Fixture.sampler0) = Ok (r, st')
       /\ trace st' = [SetEpoch TrainSplit 5; NextTrain 5; Forward ray_bundle true]
       /\ train_sampler st' = Some {| epoch := 5 |}.
Proof.
  split; [lia|].
  destruct (set_epoch_before_fetch (Fixture.collaborators Fixture.psnr)
              (Fixture.config false false 0) 2 5 (Fixture.store true Fixture.sampler0)
              {| epoch := 0 |} {| epoch := 0 |} ltac:(lia) eq_refl eq_refl)
    as (Htrain & _).
  apply Htrain. lia.
Defined.

(** C4 as stated fails: with two workers and samplers in place, the base
    [get_train_loss_dict] at step 0 and both methods of [VanillaPipeline]
    (which never read [world_size]) fetch their batch without a
    [set_epoch]. *)
Lemma set_epoch_not_called :
  (exists r st',
     Pipeline.get_train_loss_dict (Fixture.collaborators Fixture.psnr) 2 0
       (Fixture.store true Fixture.sampler0) = Ok (r, st')
     /\ trace st' = [NextTrain 0; Forward (8, 8)%nat true])
  /\ (exists r st',
        VanillaPipeline.get_train_loss_dict (Fixture.collaborators Fixture.psnr)
          (Fixture.config false false 0) 5 (Fixture.store true Fixture.sampler0)
        = Ok (r, st')
        /\ trace st' = [NextTrain 5; Forward (8, 8)%nat false]
        /\ train_sampler st' = Some {| epoch := 0 |})
  /\ (exists r st',
        VanillaPipeline.get_eval_loss_dict (Fixture.collaborators Fixture.psnr) 5
          (Fixture.store true Fixture.sampler0) = Ok (r, st')
        /\ trace st' = [NextEval 5; Forward (8, 8)%nat false]
        /\ eval_sampler st' = Some {| epoch := 0 |}).
Proof.
  repeat split; eexists _, _; (split; [vm_compute; reflexivity|done]).
Qed.

(** ** The dataset pass *)

(** C10: when [get_average_eval_image_metrics] returns, the model is in
    trainable mode, whatever its mode before the call. *)
Theorem get_average_eval_image_metrics_ends_in_training
    {Tensor RayBundle World : Type}
    (env : Collaborators Tensor RayBundle World) (config : VanillaPipelineConfig)
    (step : option Z) (return_imgs : bool) (st st' : Store RayBundle World)
    (r : gmap string Qc * option (gmap string Tensor)) :
  VanillaPipeline.get_average_eval_image_metrics env config step return_imgs st
  = Ok (r, st') ->
  training st' = true.
Proof.
  unfold VanillaPipeline.get_average_eval_image_metrics. intros Hrun.
  apply bind_Ok in Hrun as (u1 & st1 & _ & Hrun).
  apply bind_Ok in Hrun as (num_images & st2 & _ & Hrun).
  apply bind_Ok in Hrun as ([metrics_dict_list images_dict_list] & st3 & _ & Hrun).
  apply bind_Ok in Hrun as (metrics_dict & st4 & _ & Hrun).
  apply bind_Ok in Hrun as (images_dict & st5 & _ & Hrun).
  apply bind_Ok in Hrun as (u2 & st6 & Htrain & Hrun).
  unfold train in Htrain. unfold_monad. injection Htrain as _ <-.
  destruct (negb return_imgs); by injection Hrun as <- <-.
Qed.

(** A pass over the two images with both optimizations, from inference
    mode and from trainable mode. *)
Lemma get_average_eval_image_metrics_ends_in_training_witness :
  exists r st' r2 st2,
    VanillaPipeline.get_average_eval_image_metrics
      (Fixture.collaborators Fixture.psnr) (Fixture.config true true 2) None false
      (Fixture.store false None) = Ok (r, st')
    /\ training st' = true
    /\ VanillaPipeline.get_average_eval_image_metrics
         (Fixture.collaborators Fixture.psnr) (Fixture.config true true 2) None true
         (Fixture.store true None) = Ok (r2, st2)
    /\ training st2 = true.
Proof.
  destruct (VanillaPipeline.get_average_eval_image_metrics
              (Fixture.collaborators Fixture.psnr) (Fixture.config true true 2)
              None false (Fixture.store false None)) as [[r st']|e] eqn:Hrun;
    [|by vm_compute in Hrun].
  destruct (VanillaPipeline.get_average_eval_image_metrics
              (Fixture.collaborators Fixture.psnr) (Fixture.config true true 2)
              None true (Fixture.store true None)) as [[r2 st2]|e] eqn:Hrun2;
    [|by vm_compute in Hrun2].
  exists r, st', r2, st2.
  split; [done|].
  split; [exact (get_average_eval_image_metrics_ends_in_training _ _ _ _ _ _ _ Hrun)|].
  split; [done|].
  exact (get_average_eval_image_metrics_ends_in_training _ _ _ _ _ _ _ Hrun2).
Defined.

(** The metrics the pass returns are the aggregation of the dicts of its
    images. *)
Lemma get_average_eval_image_metrics_aggregates {Tensor RayBundle World : Type}
    (env : Collaborators Tensor RayBundle World) (config : VanillaPipelineConfig)
    (step : option Z) (return_imgs : bool) (st st' : Store RayBundle World)
    (r : gmap string Qc * option (gmap string Tensor)) :
  VanillaPipeline.get_average_eval_image_metrics env config step return_imgs st
  = Ok (r, st') ->
  exists metrics_dict_list, average_metrics metrics_dict_list = Ok r.1.
Proof.
  unfold VanillaPipeline.get_average_eval_image_metrics. intros Hrun.
  apply bind_Ok in Hrun as (u1 & st1 & _ & Hrun).
  apply bind_Ok in Hrun as (num_images & st2 & _ & Hrun).
  apply bind_Ok in Hrun as ([metrics_dict_list images_dict_list] & st3 & _ & Hrun).
  apply bind_Ok in Hrun as (metrics_dict & st4 & Havg & Hrun).
  apply lift_Ok in Havg as [Havg ->].
  apply bind_Ok in Hrun as (images_dict & st5 & _ & Hrun).
  apply bind_Ok in Hrun as (u2 & st6 & _ & Hrun).
  exists metrics_dict_list. unfold_monad.
  destruct (negb return_imgs); by injection Hrun as <- _.
Qed.

(** The pass over the two images of the fixture, psnr 20 and psnr 30. *)
Example two_image_pass_psnr :
  exists r st',
    VanillaPipeline.get_average_eval_image_metrics
      (Fixture.collaborators Fixture.psnr) (Fixture.config false false 0) None false
      (Fixture.store true None) = Ok (r, st')
    /\ this <$> (r.1 !! "psnr") = Some (25 # 1).
Proof. eexists _, _. split; [vm_compute; reflexivity|by vm_compute]. Qed.

(** ** The per-image test-time optimization *)

Lemma rescale_round_trip (f : Qc) (c : Cameras) :
  f ≠ Q2Qc 0 -> rescale (Q2Qc 1 / f) (rescale f c) = c.
Proof.
  intros Hf. destruct c as [s]. unfold rescale. simpl. f_equal. field. exact Hf.
Qed.

Lemma rescale_factors_snoc {RayBundle} (events : list (Event RayBundle)) e :
  rescale_factors (events ++ [e])
  = rescale_factors events
    ++ match e with RescaleOutputResolution f => [f] | _ => [] end.
Proof. unfold rescale_factors. rewrite omap_app. by destruct e. Qed.

Section OptimizationFacts.
Context {Tensor RayBundle World : Type}.
Context (env : Collaborators Tensor RayBundle World).
Context (config : VanillaPipelineConfig).
Implicit Types st : Store RayBundle World.

(** [same_cameras] on the stores of this pipeline. *)
Abbreviation same := (@same_cameras RayBundle World).

#[local] Instance same_cameras_preorder : PreOrder same.
Proof.
  split.
  - by intros st.
  - intros s1 s2 s3 [H1 H2] [H3 H4]. split; congruence.
Qed.

(** The store after a call that changes the store in one known way. *)
Ltac run_call H :=
  unfold update_world, train, eval, rescale_output_resolution, dm_get_eval_image,
    render, time, modify, gets in H;
  injection H as <- <-.

Lemma same_cameras_update_world (f : World -> World) :
  preserves same (update_world f).
Proof. intros st u st' H. by run_call H. Qed.

Lemma same_cameras_mode (b : bool) :
  preserves same (modify (set_training b) : M (Store RayBundle World) unit).
Proof. intros st u st' H. by run_call H. Qed.

Lemma same_cameras_get_eval_image idx scale_factor :
  preserves same (dm_get_eval_image env idx scale_factor).
Proof.
  intros st u st' H. run_call H. split; [done|]. simpl.
  by rewrite rescale_factors_snoc, app_nil_r.
Qed.

Lemma same_cameras_render b : preserves same (render env b).
Proof.
  intros st u st' H. run_call H. split; [done|]. simpl.
  by rewrite rescale_factors_snoc, app_nil_r.
Qed.

Lemma same_cameras_time : preserves same (time env).
Proof. intros st u st' H. by run_call H. Qed.

Lemma same_cameras_choose_side : preserves same (choose_side env).
Proof.
  intros st u st'. unfold choose_side.
  destruct (random_choice env (world st)) as [side w]. by intros [= _ <-].
Qed.

Lemma same_cameras_no_grad {A} (body : M (Store RayBundle World) A) :
  preserves same body -> preserves same (no_grad body).
Proof.
  intros Hbody st a st'. unfold no_grad.
  destruct (body (set_grad_enabled false st)) as [[a' st1]|e] eqn:Hrun; [|done].
  intros [= _ <-]. by destruct (Hbody _ _ _ Hrun).
Qed.

(** Composition of the [preserves] lemmas along the binds of a body. *)
Ltac same_cameras_steps :=
  repeat first
    [ apply (preserves_bind same); [|intros ?]
    | apply (preserves_ret same)
    | apply (preserves_gets same)
    | apply (preserves_getitem same)
    | apply (preserves_assert same)
    | apply (preserves_truediv same)
    | apply same_cameras_update_world
    | apply same_cameras_get_eval_image
    | apply same_cameras_render
    | apply same_cameras_time
    | apply same_cameras_choose_side
    | apply same_cameras_no_grad
    | match goal with |- preserves _ (match ?x with _ => _ end) => destruct x end ].


Lemma optimize_cameras_restores idx current st r st' :
  VanillaPipeline.optimize_cameras env config idx current st = Ok (r, st') ->
  cameras st' = cameras st
  /\ rescale_factors (trace st')
     = rescale_factors (trace st)
       ++ [eval_image_scale_factor config;
           (Q2Qc 1 / eval_image_scale_factor config)%Qc].
Proof.
  unfold VanillaPipeline.optimize_cameras. intros Hrun.
  apply bind_Ok in Hrun as (u1 & s1 & H1 & Hrun). run_call H1.
  apply bind_Ok in Hrun as (groups & s2 & H2 & Hrun). run_call H2.
  apply bind_Ok in Hrun as (group & s3 & H3 & Hrun). apply getitem_Ok in H3 as [_ ->].
  apply bind_Ok in Hrun as (u4 & s4 & H4 & Hrun). run_call H4.
  apply bind_Ok in Hrun as (u5 & s5 & H5 & Hrun). run_call H5.
  apply bind_Ok in Hrun as (u6 & s6 & H6 & Hrun). run_call H6.
  apply bind_Ok in Hrun as (cur & s7 & H7 & Hrun).
  apply (preserves_iterate same) in H7 as [Hcam Hfac];
    [|intros a; same_cameras_steps].
  apply bind_Ok in Hrun as (factor & s8 & H8 & Hrun).
  apply truediv_Ok in H8 as (Hf & -> & ->).
  apply bind_Ok in Hrun as (u9 & s9 & H9 & Hrun). run_call H9.
  apply bind_Ok in Hrun as (u10 & s10 & H10 & Hrun). run_call H10.
  unfold_monad. injection Hrun as _ <-. simpl. split.
  - rewrite Hcam. simpl. by apply rescale_round_trip.
  - rewrite rescale_factors_snoc, Hfac. simpl.
    by rewrite rescale_factors_snoc, <- app_assoc.
Qed.

Lemma optimize_appearance_restores idx width current st r st' :
  VanillaPipeline.optimize_appearance env config idx width current st = Ok (r, st') ->
  cameras st' = cameras st
  /\ rescale_factors (trace st')
     = rescale_factors (trace st)
       ++ [eval_image_scale_factor config;
           (Q2Qc 1 / eval_image_scale_factor config)%Qc].
Proof.
  unfold VanillaPipeline.optimize_appearance. intros Hrun.
  apply bind_Ok in Hrun as (u1 & s1 & H1 & Hrun). run_call H1.
  apply bind_Ok in Hrun as (u2 & s2 & H2 & Hrun). run_call H2.
  apply bind_Ok in Hrun as (u3 & s3 & H3 & Hrun). run_call H3.
  apply bind_Ok in Hrun as (params & s4 & H4 & Hrun). run_call H4.
  apply bind_Ok in Hrun as (u5 & s5 & H5 & Hrun). run_call H5.
  apply bind_Ok in Hrun as (side & s6 & H6 & Hrun).
  apply same_cameras_choose_side in H6 as [Hcam6 Hfac6].
  apply bind_Ok in Hrun as (cur & s7 & H7 & Hrun).
  apply (preserves_iterate same) in H7 as [Hcam Hfac];
    [|intros a; same_cameras_steps].
  apply bind_Ok in Hrun as (factor & s8 & H8 & Hrun).
  apply truediv_Ok in H8 as (Hf & -> & ->).
  apply bind_Ok in Hrun as (u9 & s9 & H9 & Hrun). run_call H9.
  apply bind_Ok in Hrun as (u10 & s10 & H10 & Hrun). run_call H10.
  apply bind_Ok in Hrun as (u11 & s11 & H11 & Hrun). run_call H11.
  unfold_monad. injection Hrun as _ <-. simpl. split.
  - rewrite Hcam, Hcam6. simpl. by apply rescale_round_trip.
  - rewrite rescale_factors_snoc, Hfac, Hfac6. simpl.
    by rewrite rescale_factors_snoc, <- app_assoc.
Qed.




(** After a pose optimization of at least one iteration, the bundle and
    the batch in hand are the ones of a fetch at [eval_image_scale_factor],
    made while the cameras were scaled down. *)
Lemma optimize_cameras_last_fetch idx current st r st' :
  (0 < eval_num_pose_iters config)%Z ->
  VanillaPipeline.optimize_cameras env config idx current st = Ok (r, st') ->
  exists w,
    r = get_eval_image env idx (eval_image_scale_factor config)
          (rescale (eval_image_scale_factor config) (cameras st)) w.
Proof.
  intros Hiters. unfold VanillaPipeline.optimize_cameras. intros Hrun.
  apply bind_Ok in Hrun as (u1 & s1 & H1 & Hrun). run_call H1.
  apply bind_Ok in Hrun as (groups & s2 & H2 & Hrun). run_call H2.
  apply bind_Ok in Hrun as (group & s3 & H3 & Hrun). apply getitem_Ok in H3 as [_ ->].
  apply bind_Ok in Hrun as (u4 & s4 & H4 & Hrun). run_call H4.
  apply bind_Ok in Hrun as (u5 & s5 & H5 & Hrun). run_call H5.
  apply bind_Ok in Hrun as (u6 & s6 & H6 & Hrun). run_call H6.
  apply bind_Ok in Hrun as (cur & s7 & H7 & Hrun).
  apply bind_Ok in Hrun as (factor & s8 & _ & Hrun).
  apply bind_Ok in Hrun as (u9 & s9 & _ & Hrun).
  apply bind_Ok in Hrun as (u10 & s10 & _ & Hrun).
  unfold mret, M_ret, ret in Hrun. injection Hrun as <- _.
  unfold for_range in H7.
  destruct (Z.to_nat (eval_num_pose_iters config)) as [|n] eqn:Hn; [lia|].
  revert H7.
  apply (iterate_last
           (fun s => cameras s
                     = rescale (eval_image_scale_factor config) (cameras st))
           (fun a => exists w,
                a = get_eval_image env idx (eval_image_scale_factor config)
                      (rescale (eval_image_scale_factor config) (cameras st)) w));
    [|done].
  clear. intros a s a1 s1 Hcam Hbody.
  apply bind_Ok in Hbody as (u1 & t1 & H1 & Hbody). run_call H1.
  apply bind_Ok in Hbody as ([bundle batch] & t2 & H2 & Hbody).
  unfold dm_get_eval_image in H2. injection H2 as Hfetch <-.
  apply bind_Ok in Hbody as (outputs & t3 & H3 & Hbody). run_call H3.
  apply bind_Ok in Hbody as (w & t4 & H4 & Hbody). run_call H4.
  apply bind_Ok in Hbody as (loss & t5 & H5 & Hbody). apply getitem_Ok in H5 as [_ ->].
  apply bind_Ok in Hbody as (u6 & t6 & H6 & Hbody). run_call H6.
  unfold mret, M_ret, ret in Hbody. injection Hbody as <- <-. simpl in *.
  split; [|done].
  rewrite Hcam in Hfetch. by eexists.
Qed.

End OptimizationFacts.




(** ** The metrics of one image *)

Section ImageMetricsFacts.
Context {Tensor RayBundle World : Type}.
Context (env : Collaborators Tensor RayBundle World).
Context (config : VanillaPipelineConfig).
Implicit Types st : Store RayBundle World.

Lemma contains_true {V} key (d : gmap string V) :
  VanillaPipeline.contains key d = true <-> is_Some (d !! key).
Proof. unfold VanillaPipeline.contains. apply bool_decide_eq_true. Qed.

Lemma contains_false {V} key (d : gmap string V) :
  VanillaPipeline.contains key d = false <-> d !! key = None.
Proof.
  unfold VanillaPipeline.contains. rewrite bool_decide_eq_false.
  by rewrite eq_None_not_Some.
Qed.

Lemma contains_insert_ne {V} key key' (v : V) (d : gmap string V) :
  key ≠ key' ->
  VanillaPipeline.contains key (<[key' := v]> d) = VanillaPipeline.contains key d.
Proof.
  intros Hne. unfold VanillaPipeline.contains. by rewrite lookup_insert_ne.
Qed.

(** [get_eval_image_metrics_and_images], case by case. *)
Lemma get_eval_image_metrics_and_images_run step st image_idx ray_bundle batch w :
  next_eval_image env step (world st) = (image_idx, ray_bundle, batch, w) ->
  let reported := model_image_metrics env w false ray_bundle batch in
  VanillaPipeline.get_eval_image_metrics_and_images env step st
  = if VanillaPipeline.contains "image_idx" reported.1 then Raise AssertionError
    else if VanillaPipeline.contains "num_rays" reported.1 then Raise AssertionError
    else Ok ((<["num_rays" := Qc_of_nat (len env ray_bundle)]>
                (<["image_idx" := Qc_of_nat image_idx]> reported.1),
              reported.2),
             set_training true
               (set_grad_enabled (grad_enabled st)
                  (log (Render ray_bundle false)
                     (set_grad_enabled false
                        (log (NextEvalImage step)
                           (set_world w (set_training false st))))))).
Proof.
  intros Hnext reported.
  unfold VanillaPipeline.get_eval_image_metrics_and_images, eval, train,
    dm_next_eval_image, no_grad, render.
  unfold_monad. simpl. rewrite Hnext. simpl.
  fold (model_image_metrics env w false ray_bundle batch). fold reported.
  destruct reported as [metrics_dict images_dict]. simpl.
  destruct (VanillaPipeline.contains "image_idx" metrics_dict) eqn:Hidx; [done|].
  simpl. rewrite contains_insert_ne by done.
  by destruct (VanillaPipeline.contains "num_rays" metrics_dict).
Qed.

(** [final_metrics], case by case. *)
Lemma final_metrics_run inner_start height width num_rays ray_bundle batch st :
  let reported := model_image_metrics env (world st) (training st) ray_bundle batch in
  let elapsed := (clock env (ticks st) - inner_start)%Qc in
  let num_rays_per_sec := (Qc_of_nat num_rays / elapsed)%Qc in
  VanillaPipeline.final_metrics env inner_start height width num_rays
    (ray_bundle, batch) st
  = if VanillaPipeline.contains "num_rays_per_sec" reported.1
    then Raise AssertionError
    else if Qeq_bool (this elapsed) 0 then Raise ZeroDivisionError
    else if VanillaPipeline.contains "fps" reported.1 then Raise AssertionError
    else if Qeq_bool (this (Qc_of_nat (height * width))) 0 then Raise ZeroDivisionError
    else Ok ((<["fps" := (num_rays_per_sec / Qc_of_nat (height * width))%Qc]>
                (<["num_rays_per_sec" := num_rays_per_sec]> reported.1),
              reported.2),
             after_final_metrics ray_bundle st).
Proof.
  intros reported elapsed num_rays_per_sec.
  unfold VanillaPipeline.final_metrics, no_grad, render, time, truediv, getitem.
  unfold_monad. simpl.
  fold (model_image_metrics env (world st) (training st) ray_bundle batch). fold reported.
  destruct reported as [metrics_dict images_dict]. simpl.
  destruct (VanillaPipeline.contains "num_rays_per_sec" metrics_dict); [done|]. simpl.
  destruct (Qeq_bool (Qred (clock env (ticks st) + Qred (- inner_start))) 0);
    [done|].
  unfold assert. rewrite contains_insert_ne by done.
  destruct (VanillaPipeline.contains "fps" metrics_dict); [done|]. simpl.
  rewrite lookup_insert_eq.
  by destruct (Qeq_bool _ 0).
Qed.

Lemma Qc_sub_zero (a b : Qc) : Qeq_bool (this (a - b)%Qc) 0 = true -> a = b.
Proof.
  intros Hz. apply Qeq_bool_eq in Hz.
  assert ((a - b)%Qc = Q2Qc 0) as Hab by (by apply Qc_is_canon).
  rewrite <- (Qcplus_0_r b), <- Hab. ring.
Qed.

(** A [final_metrics] that returns found neither of its two keys in the
    dict of the model. *)
Lemma final_metrics_Ok inner_start height width num_rays ray_bundle batch st r st' :
  VanillaPipeline.final_metrics env inner_start height width num_rays
    (ray_bundle, batch) st = Ok (r, st') ->
  let reported := model_image_metrics env (world st) (training st) ray_bundle batch in
  let elapsed := (clock env (ticks st) - inner_start)%Qc in
  reported.1 !! "num_rays_per_sec" = None
  /\ reported.1 !! "fps" = None
  /\ elapsed ≠ Q2Qc 0
  /\ r = (<["fps" := (Qc_of_nat num_rays / elapsed / Qc_of_nat (height * width))%Qc]>
            (<["num_rays_per_sec" := (Qc_of_nat num_rays / elapsed)%Qc]> reported.1),
          reported.2)
  /\ st' = after_final_metrics ray_bundle st.
Proof.
  rewrite final_metrics_run. cbv zeta.
  destruct (VanillaPipeline.contains "num_rays_per_sec" _) eqn:H1; [done|].
  destruct (Qeq_bool (this _) 0) eqn:H2; [done|].
  destruct (VanillaPipeline.contains "fps" _) eqn:H3; [done|].
  destruct (Qeq_bool (this (Qc_of_nat _)) 0) eqn:H4; [done|].
  intros [= <- <-]. apply contains_false in H1, H3.
  repeat split; try done. intros Hz. by rewrite Hz in H2.
Qed.

(** The last step of [eval_image] is [final_metrics], started at the clock
    reading taken after the first fetch and with the shape of the bundle of
    that fetch. *)
Lemma eval_image_final idx st r st' :
  VanillaPipeline.eval_image env config idx st = Ok (r, st') ->
  exists current s,
    VanillaPipeline.final_metrics env (clock env (ticks st))
      (shape env (get_eval_image env idx (Q2Qc 1) (cameras st) (world st)).1).1
      (shape env (get_eval_image env idx (Q2Qc 1) (cameras st) (world st)).1).2
      ((shape env (get_eval_image env idx (Q2Qc 1) (cameras st) (world st)).1).1
       * (shape env (get_eval_image env idx (Q2Qc 1) (cameras st) (world st)).1).2)
      current s = Ok (r, st').
Proof.
  unfold VanillaPipeline.eval_image. intros Hrun.
  apply bind_Ok in Hrun as (cur & s1 & H1 & Hrun).
  unfold dm_get_eval_image in H1. injection H1 as <- <-.
  apply bind_Ok in Hrun as (inner_start & s2 & H2 & Hrun).
  unfold time in H2. injection H2 as <- <-. simpl in Hrun.
  destruct (shape env _) as [height width]. simpl.
  apply bind_Ok in Hrun as (cur1 & s3 & _ & Hrun).
  apply bind_Ok in Hrun as (cur2 & s4 & _ & Hrun).
  by exists cur2, s4.
Qed.

(** A dataset pass that returns has run [final_metrics] to its end on
    some image. *)
Lemma get_average_eval_image_metrics_Ok step return_imgs st r st' :
  VanillaPipeline.get_average_eval_image_metrics env config step return_imgs st
  = Ok (r, st') ->
  exists inner_start height width num_rays current s r1 s1,
    VanillaPipeline.final_metrics env inner_start height width num_rays current s
    = Ok (r1, s1).
Proof.
  unfold VanillaPipeline.get_average_eval_image_metrics. intros Hrun.
  apply bind_Ok in Hrun as (u1 & s1 & _ & Hrun).
  apply bind_Ok in Hrun as (num_images & s2 & _ & Hrun).
  apply bind_Ok in Hrun as ([metrics_dict_list images_dict_list] & s3 & Hloop & Hrun).
  destruct num_images as [|n]; simpl in Hloop.
  - unfold ret in Hloop. injection Hloop as <- <- <-.
    apply bind_Ok in Hrun as (m & s4 & Havg & _). by apply lift_Ok in Havg as [? _].
  - apply bind_Ok in Hloop as ([ml il] & s4 & Hbody & _).
    apply bind_Ok in Hbody as ([md imgs] & s5 & Himage & _).
    apply eval_image_final in Himage as (current & s & Hfinal). eauto 10.
Qed.

End ImageMetricsFacts.

(** C9: when the dict the model reports already has [image_idx] or
    [num_rays], [get_eval_image_metrics_and_images] raises
    [AssertionError]; when it has [num_rays_per_sec] or [fps], the step of
    the dataset pass that adds the two keys raises and the pass does not
    return. The error is [AssertionError], save that for [fps] a clock that
    has not moved since the start of the image gives the
    [ZeroDivisionError] of the rate first. No value is overwritten. *)
Theorem injected_keys_are_asserted_fresh {Tensor RayBundle World : Type}
    (env : Collaborators Tensor RayBundle World) (config : VanillaPipelineConfig)
    (st : Store RayBundle World) (step : Z) (inner_start : Qc)
    (height width num_rays : nat) (ray_bundle : RayBundle)
    (batch : gmap string Tensor) :
  (forall image_idx bundle image w key,
      next_eval_image env step (world st) = (image_idx, bundle, image, w) ->
      key ∈ ["image_idx"; "num_rays"] ->
      is_Some ((model_image_metrics env w false bundle image).1 !! key) ->
      VanillaPipeline.get_eval_image_metrics_and_images env step st
      = Raise AssertionError)
  /\ (is_Some ((model_image_metrics env (world st) (training st) ray_bundle batch).1
                !! "num_rays_per_sec") ->
      VanillaPipeline.final_metrics env inner_start height width num_rays
        (ray_bundle, batch) st = Raise AssertionError)
  /\ (is_Some ((model_image_metrics env (world st) (training st) ray_bundle batch).1
                !! "fps") ->
      exists e,
        VanillaPipeline.final_metrics env inner_start height width num_rays
          (ray_bundle, batch) st = Raise e
        /\ (clock env (ticks st) ≠ inner_start -> e = AssertionError))
  /\ (forall key return_imgs,
        key ∈ ["num_rays_per_sec"; "fps"] ->
        (forall w mode bundle image,
            is_Some ((model_image_metrics env w mode bundle image).1 !! key)) ->
        is_ok (VanillaPipeline.get_average_eval_image_metrics env config
                 (Some step) return_imgs st) = false).
Proof.
  split; [|split; [|split]].
  - intros image_idx bundle image w key Hnext Hkey Hsome.
    rewrite (get_eval_image_metrics_and_images_run env step st _ _ _ _ Hnext).
    cbv zeta. apply contains_true in Hsome.
    apply elem_of_cons in Hkey as [->|Hkey]; [by rewrite Hsome|].
    apply list_elem_of_singleton in Hkey as ->. rewrite Hsome.
    by destruct (VanillaPipeline.contains "image_idx" _).
  - intros Hsome. rewrite final_metrics_run. cbv zeta.
    apply contains_true in Hsome. by rewrite Hsome.
  - intros Hsome. rewrite final_metrics_run. cbv zeta.
    apply contains_true in Hsome. rewrite Hsome.
    destruct (VanillaPipeline.contains "num_rays_per_sec" _);
      [by exists AssertionError|].
    destruct (Qeq_bool (this _) 0) eqn:Hz; [|by exists AssertionError].
    exists ZeroDivisionError. split; [done|].
    intros Hne. by apply Qc_sub_zero in Hz.
  - intros key return_imgs Hkey Hsome.
    destruct (VanillaPipeline.get_average_eval_image_metrics _ _ _ _ _)
      as [[r st']|e] eqn:Hrun; [exfalso|done].
    apply get_average_eval_image_metrics_Ok in Hrun
      as (t0 & h & w & n & [bundle image] & s & r1 & s1 & Hfinal).
    apply final_metrics_Ok in Hfinal as (Hrate & Hfps & _).
    specialize (Hsome (world s) (training s) bundle image) as [v Hv].
    apply elem_of_cons in Hkey as [->|Hkey]; [congruence|].
    apply list_elem_of_singleton in Hkey as ->. congruence.
Qed.

(** A model that reports its own [image_idx] and one that reports its own
    [fps]. *)
Lemma injected_keys_are_asserted_fresh_witness :
  VanillaPipeline.get_eval_image_metrics_and_images
    (Fixture.collaborators (fun _ => {[ "image_idx" := Qc_of_nat 9 ]})) 0
    (Fixture.store true None) = Raise AssertionError
  /\ is_ok (VanillaPipeline.get_average_eval_image_metrics
             (Fixture.collaborators (fun _ => {[ "fps" := Qc_of_nat 9 ]}))
             (Fixture.config false false 0) (Some 0%Z) false
             (Fixture.store true None)) = false.
Proof.
  split.
  - pose proof (injected_keys_are_asserted_fresh
                  (Fixture.collaborators (fun _ => {[ "image_idx" := Qc_of_nat 9 ]}))
                  (Fixture.config false false 0) (Fixture.store true None) 0
                  (Q2Qc 0) 8 8 64 (8, 8)%nat ∅) as (Hidx & _).
    apply (Hidx 0%nat (8, 8)%nat {[ "image" := 0%nat ]} tt "image_idx").
    + reflexivity.
    + set_solver.
    + by eexists.
  - pose proof (injected_keys_are_asserted_fresh
                  (Fixture.collaborators (fun _ => {[ "fps" := Qc_of_nat 9 ]}))
                  (Fixture.config false false 0) (Fixture.store true None) 0
                  (Q2Qc 0) 8 8 64 (8, 8)%nat ∅) as (_ & _ & _ & Hpass).
    apply (Hpass "fps" false).
    + set_solver.
    + intros w mode bundle image. by eexists.
Defined.

(** ** The final render of an image *)

(** The final render of an image runs without gradient tracking, and with
    both optimizations off it is the render of the bundle fetched at the
    start. *)
Lemma eval_image_final_render {Tensor RayBundle World : Type}
    (env : Collaborators Tensor RayBundle World) (config : VanillaPipelineConfig)
    (idx : nat) (st st' : Store RayBundle World)
    (r : gmap string Qc * gmap string Tensor) :
  VanillaPipeline.eval_image env config idx st = Ok (r, st') ->
  (exists events bundle, trace st' = events ++ [Render bundle false])
  /\ (eval_optimize_cameras config = false ->
      eval_optimize_appearance config = false ->
      trace st'
      = trace st
        ++ [GetEvalImage idx (Q2Qc 1);
            Render (get_eval_image env idx (Q2Qc 1) (cameras st) (world st)).1 false]).
Proof.
  intros Hrun. split.
  - apply eval_image_final in Hrun as ([bundle batch] & s & Hfinal).
    apply final_metrics_Ok in Hfinal as (_ & _ & _ & _ & ->).
    by exists (trace s), bundle.
  - intros Hcam Happ. unfold VanillaPipeline.eval_image in Hrun.
    rewrite Hcam, Happ in Hrun.
    apply bind_Ok in Hrun as (cur & s1 & H1 & Hrun).
    unfold dm_get_eval_image in H1. injection H1 as <- <-.
    apply bind_Ok in Hrun as (inner_start & s2 & H2 & Hrun).
    unfold time in H2. injection H2 as <- <-.
    destruct (shape env _) as [height width].
    apply bind_Ok in Hrun as (cur1 & s3 & H3 & Hrun).
    unfold_monad. injection H3 as <- <-.
    destruct (get_eval_image env idx (Q2Qc 1) (cameras st) (world st))
      as [bundle batch].
    apply final_metrics_Ok in Hrun as (_ & _ & _ & _ & ->).
    simpl. by rewrite <- app_assoc.
Qed.

(** With the pose optimization on for at least one iteration (and the
    appearance optimization off), the final render is the one of a bundle
    fetched at [eval_image_scale_factor] from the scaled-down cameras. *)
Lemma eval_image_renders_last_fetch {Tensor RayBundle World : Type}
    (env : Collaborators Tensor RayBundle World) (config : VanillaPipelineConfig)
    (idx : nat) (st st' : Store RayBundle World)
    (r : gmap string Qc * gmap string Tensor) :
  eval_optimize_cameras config = true ->
  eval_optimize_appearance config = false ->
  (0 < eval_num_pose_iters config)%Z ->
  VanillaPipeline.eval_image env config idx st = Ok (r, st') ->
  exists w events,
    trace st'
    = events
      ++ [Render (get_eval_image env idx (eval_image_scale_factor config)
                    (rescale (eval_image_scale_factor config) (cameras st)) w).1
            false].
Proof.
  intros Hcam Happ Hiters. unfold VanillaPipeline.eval_image.
  rewrite Hcam, Happ. intros Hrun.
  apply bind_Ok in Hrun as (cur & s1 & H1 & Hrun).
  unfold dm_get_eval_image in H1. injection H1 as <- <-.
  apply bind_Ok in Hrun as (inner_start & s2 & H2 & Hrun).
  unfold time in H2. injection H2 as <- <-.
  destruct (shape env _) as [height width].
  apply bind_Ok in Hrun as (cur1 & s3 & H3 & Hrun).
  apply (optimize_cameras_last_fetch env config idx _ _ _ _ Hiters) in H3 as [w ->].
  apply bind_Ok in Hrun as (cur2 & s4 & H4 & Hrun).
  unfold mret, M_ret, ret in H4. injection H4 as <- <-.
  simpl in Hrun. exists w.
  destruct (get_eval_image env idx (eval_image_scale_factor config) _ w)
    as [bundle batch].
  apply final_metrics_Ok in Hrun as (_ & _ & _ & _ & ->).
  by exists (trace s3).
Qed.

(** C1: the loop of the pose optimization assigns [camera_ray_bundle], so
    after at least one iteration the final render of the image, under
    [torch.no_grad()], is the one of the bundle fetched last, at
    [eval_image_scale_factor], and not of the bundle fetched at the start.
    On a pass with one pose iteration at scale 1/8 over two images of 8 by
    8 rays the 1 by 1 bundles are rendered, while [num_rays_per_sec] still
    counts the 64 rays of the native bundle; without the optimization the
    8 by 8 bundles are rendered. *)
Theorem final_render_after_pose_optimization :
  (forall (Tensor RayBundle World : Type)
      (env : Collaborators Tensor RayBundle World) (config : VanillaPipelineConfig)
      (idx : nat) (st st' : Store RayBundle World)
      (r : gmap string Qc * gmap string Tensor),
      eval_optimize_cameras config = true ->
      eval_optimize_appearance config = false ->
      (0 < eval_num_pose_iters config)%Z ->
      VanillaPipeline.eval_image env config idx st = Ok (r, st') ->
      exists w events,
        trace st'
        = events
          ++ [Render (get_eval_image env idx (eval_image_scale_factor config)
                        (rescale (eval_image_scale_factor config) (cameras st)) w).1
                false])
  /\ shape (Fixture.collaborators Fixture.psnr)
       (get_eval_image (Fixture.collaborators Fixture.psnr) 0 (Q2Qc 1)
          (cameras (Fixture.store false None)) tt).1 = (8, 8)%nat
  /\ (exists r st',
        VanillaPipeline.get_average_eval_image_metrics
          (Fixture.collaborators Fixture.psnr) (Fixture.config true false 1)
          None false (Fixture.store false None) = Ok (r, st')
        /\ no_grad_renders (trace st') = [(1, 1); (1, 1)]%nat
        /\ this <$> (r.1 !! "num_rays_per_sec") = Some (64 # 1))
  /\ (exists r st',
        VanillaPipeline.get_average_eval_image_metrics
          (Fixture.collaborators Fixture.psnr) (Fixture.config false false 1)
          None false (Fixture.store false None) = Ok (r, st')
        /\ no_grad_renders (trace st') = [(8, 8); (8, 8)]%nat
        /\ this <$> (r.1 !! "num_rays_per_sec") = Some (64 # 1)).
Proof.
  split; [intros; by eapply eval_image_renders_last_fetch|].
  split; [by vm_compute|].
  split; eexists _, _; (split; [vm_compute; reflexivity|by vm_compute]).
Qed.

(** * More properties *)

(** ** [load_pipeline] on a checkpoint saved without the wrapper *)

Lemma replace_no_occurrence (old new s : string) :
  old ≠ EmptyString -> occurs old s = false -> Str.replace old new s = s.
Proof.
  destruct old as [|a old]; [done|intros _].
  unfold Str.replace. induction s as [|c s IH]; [done|].
  cbn [occurs Str.replace_from]. intros Hocc.
  apply orb_false_iff in Hocc as [-> Hocc]. by rewrite IH.
Qed.

Lemma rename_keys_unchanged {V} (items : list (string * V)) :
  Forall (fun kv => occurs "module." kv.1 = false) items ->
  NoDup items.*1 ->
  rename_keys items = list_to_map items.
Proof.
  induction items as [|[key value] items IH] using rev_ind; [done|].
  intros Hocc Hdup. rewrite rename_keys_snoc. cbn [fst snd].
  apply Forall_app in Hocc as [Hocc Hkey].
  apply Forall_inv in Hkey. cbn [fst] in Hkey.
  rewrite fmap_app in Hdup. apply NoDup_app in Hdup as (Hdup & Hnew & _).
  rewrite (replace_no_occurrence "module." "" key) by done.
  rewrite (IH Hocc Hdup).
  symmetry. apply list_to_map_snoc.
  intros Hin. apply (Hnew key Hin). simpl. constructor.
Qed.

(** X1: a checkpoint none of whose keys contains ["module."] is applied as
    it is in the test and val modes, and without the six bookkeeping keys,
    and nothing else changed, in the inference mode. *)
Theorem load_pipeline_unwrapped_checkpoint (items : list (string * nat))
    (key : string) :
  Forall (fun kv => occurs "module." kv.1 = false) items ->
  NoDup items.*1 ->
  load_pipeline Test items = list_to_map items
  /\ load_pipeline Val items = list_to_map items
  /\ load_pipeline Inference items !! key
     = if decide (key ∈ @inference_pruned) then None
       else (list_to_map items : gmap string nat) !! key.
Proof.
  intros Hocc Hdup. rewrite load_pipeline_inference_lookup.
  unfold load_pipeline. by rewrite rename_keys_unchanged.
Qed.

Lemma load_pipeline_unwrapped_checkpoint_witness :
  load_pipeline Val [("model.w", 1); ("datamanager.eval_ray_generator.image_coords", 2)]
  = list_to_map [("model.w", 1); ("datamanager.eval_ray_generator.image_coords", 2)]
  /\ load_pipeline Inference
       [("model.w", 1); ("datamanager.eval_ray_generator.image_coords", 2)]
       !! "model.w" = Some 1.
Proof.
  assert (Forall (fun kv : string * nat => occurs "module." kv.1 = false)
            [("model.w", 1); ("datamanager.eval_ray_generator.image_coords", 2)])
    as Hocc by (repeat constructor).
  assert (NoDup [("model.w", 1);
                 ("datamanager.eval_ray_generator.image_coords", 2)].*1)
    as Hdup by (apply (bool_decide_unpack _); by vm_compute).
  destruct (load_pipeline_unwrapped_checkpoint _ "model.w" Hocc Hdup)
    as (_ & Hval & Hinf).
  split; [exact Hval|]. rewrite Hinf. reflexivity.
Defined.

(** ** [get_param_groups] *)

Lemma map_fold_insert_lookup {V} (init b : gmap string V) (key : string) :
  map_fold (fun key value out => <[key := value]> out) init b !! key
  = match b !! key with Some v => Some v | None => init !! key end.
Proof.
  revert key.
  apply (map_fold_weak_ind
           (fun out m => forall key,
                out !! key = match m !! key with Some v => Some v | None => init !! key end)).
  - intros key. by rewrite lookup_empty.
  - intros i x m out Hfresh IH key. rewrite !lookup_insert.
    destruct (decide (i = key)) as [->|Hne]; [done|apply IH].
Qed.

Lemma dict_unpack_lookup {V} (a b : gmap string V) (key : string) :
  dict_unpack a b !! key
  = match b !! key with Some v => Some v | None => a !! key end.
Proof.
  unfold dict_unpack. rewrite !map_fold_insert_lookup, lookup_empty.
  by destruct (b !! key), (a !! key).
Qed.

(** X2: the param groups of the pipeline have the names of the data
    manager's and of the model's groups; under a name that both have, the
    group of the model replaces the one of the data manager, without an
    error. *)
Theorem get_param_groups_model_wins {Tensor RayBundle World : Type}
    (env : Collaborators Tensor RayBundle World)
    (model_params : World -> gmap string (list Tensor)) (w : World) (name : string) :
  dom (get_param_groups env model_params w)
  = dom (dm_get_param_groups env w) ∪ dom (model_params w)
  /\ get_param_groups env model_params w !! name
     = match model_params w !! name with
       | Some group => Some group
       | None => dm_get_param_groups env w !! name
       end.
Proof.
  unfold get_param_groups. split; [|apply dict_unpack_lookup].
  apply set_eq. intros key. rewrite elem_of_union, !elem_of_dom, dict_unpack_lookup.
  destruct (model_params w !! key) as [g|].
  - split; [right|]; by eexists.
  - split; [by left|]. by intros [H|[? ?]].
Qed.

(** ** More on the loss operations *)

(** X3: in the base pipeline with several workers, a missing sampler is an
    [AssertionError]: for the training sampler at every non-zero step, for
    the eval sampler at every step. *)
Theorem base_pipeline_asserts_samplers {Tensor RayBundle World : Type}
    (env : Collaborators Tensor RayBundle World) (world_size step : Z)
    (st : Store RayBundle World) :
  (1 < world_size)%Z ->
  (step ≠ 0%Z -> train_sampler st = None ->
   Pipeline.get_train_loss_dict env world_size step st = Raise AssertionError)
  /\ (eval_sampler st = None ->
      Pipeline.get_eval_loss_dict env world_size step st = Raise AssertionError).
Proof.
  intros Hws. split.
  - intros Hstep Hnone.
    unfold Pipeline.get_train_loss_dict, train_sampler_set_epoch.
    rewrite bool_decide_eq_true_2 by done.
    assert ((step =? 0)%Z = false) as -> by by apply Z.eqb_neq.
    unfold_monad. simpl. by rewrite Hnone.
  - intros Hnone.
    unfold Pipeline.get_eval_loss_dict, eval_sampler_set_epoch, eval.
    rewrite bool_decide_eq_true_2 by done.
    unfold_monad. simpl. by rewrite Hnone.
Qed.

Lemma base_pipeline_asserts_samplers_witness :
  Pipeline.get_train_loss_dict (Fixture.collaborators Fixture.psnr) 2 5
    (Fixture.store true None) = Raise AssertionError
  /\ Pipeline.get_eval_loss_dict (Fixture.collaborators Fixture.psnr) 2 0
       (Fixture.store true None) = Raise AssertionError.
Proof.
  destruct (base_pipeline_asserts_samplers (Fixture.collaborators Fixture.psnr) 2 5
              (Fixture.store true None) ltac:(lia)) as [Htrain _].
  destruct (base_pipeline_asserts_samplers (Fixture.collaborators Fixture.psnr) 2 0
              (Fixture.store true None) ltac:(lia)) as [_ Heval].
  split; [apply Htrain; [lia|done]|by apply Heval].
Defined.



(** X5: unlike the eval operations, neither [get_train_loss_dict] touches
    the mode of the model: a call that returns leaves the training flag, the
    gradient setting and the eval cameras as they were. *)
Theorem get_train_loss_dict_keeps_mode {Tensor RayBundle World : Type}
    (env : Collaborators Tensor RayBundle World) (config : VanillaPipelineConfig)
    (world_size step : Z) (st : Store RayBundle World) :
  (forall r st',
      Pipeline.get_train_loss_dict env world_size step st = Ok (r, st') ->
      training st' = training st /\ grad_enabled st' = grad_enabled st
      /\ cameras st' = cameras st)
  /\ (forall r st',
        VanillaPipeline.get_train_loss_dict env config step st = Ok (r, st') ->
        training st' = training st /\ grad_enabled st' = grad_enabled st
        /\ cameras st' = cameras st).
Proof.
  split; intros r st'.
  - unfold Pipeline.get_train_loss_dict, train_sampler_set_epoch, dm_next_train,
      model_call.
    unfold_monad. simpl.
    destruct (_ && _); simpl.
    + destruct (train_sampler st); simpl; [|done].
      destruct (next_train env step _ (world st)) as [[rb batch] w]. simpl.
      by intros [= _ <-].
    + destruct (next_train env step _ (world st)) as [[rb batch] w]. simpl.
      by intros [= _ <-].
  - unfold VanillaPipeline.get_train_loss_dict, dm_next_train, model_call.
    unfold_monad. simpl.
    destruct (next_train env step _ (world st)) as [[rb batch] w]. simpl.
    destruct (VanillaPipeline.contains _ _); simpl; [|by intros [= _ <-]].
    unfold getitem. destruct (_ !! _) as [group|]; unfold_monad; [|done].
    destruct (first group) as [p|]; [|done].
    by intros [= _ <-].
Qed.

Lemma get_train_loss_dict_keeps_mode_witness :
  exists r st',
    VanillaPipeline.get_train_loss_dict (Fixture.collaborators Fixture.psnr)
      (Fixture.config false false 0) 3 (Fixture.store false None) = Ok (r, st')
    /\ training st' = false /\ grad_enabled st' = true
    /\ cameras st' = {| resolution_scale := Q2Qc 1 |}.
Proof.
  destruct (VanillaPipeline.get_train_loss_dict _ _ _ _) as [[r st']|e] eqn:Hrun;
    [|by vm_compute in Hrun].
  exists r, st'. split; [done|].
  destruct (get_train_loss_dict_keeps_mode (Fixture.collaborators Fixture.psnr)
              (Fixture.config false false 0) 1 3 (Fixture.store false None))
    as [_ Hvanilla].
  exact (Hvanilla r st' Hrun).
Defined.

(** X6: the camera-optimizer metrics of [VanillaPipeline.get_train_loss_dict].
    Without a param group named [<param_group>_train] the metrics are the
    ones of the model; with one, the norms of its first parameter are stored
    under [camera_opt_translation] and [camera_opt_rotation], over whatever
    the model reported there, and the loss dict is computed from the metrics
    so extended; an empty group is an [IndexError]. *)
Theorem get_train_loss_dict_camera_metrics {Tensor RayBundle World : Type}
    (env : Collaborators Tensor RayBundle World) (config : VanillaPipelineConfig)
    (step : Z) (st : Store RayBundle World) (ray_bundle : RayBundle)
    (batch : gmap string Tensor) (w : World) :
  next_train env step (train_sampler st) (world st) = (ray_bundle, batch, w) ->
  let outputs := forward env w (training st) ray_bundle None in
  let reported := get_metrics_dict env w outputs batch in
  match dm_get_param_groups env w
        !! (camera_optimizer_param_group config +:+ "_train") with
  | None =>
      exists st',
        VanillaPipeline.get_train_loss_dict env config step st
        = Ok ((outputs, get_loss_dict env w outputs batch reported, reported), st')
  | Some [] =>
      VanillaPipeline.get_train_loss_dict env config step st = Raise IndexError
  | Some (p :: _) =>
      exists metrics st',
        VanillaPipeline.get_train_loss_dict env config step st
        = Ok ((outputs, get_loss_dict env w outputs batch metrics, metrics), st')
        /\ metrics !! "camera_opt_translation" = Some (translation_norm env p)
        /\ metrics !! "camera_opt_rotation" = Some (rotation_norm env p)
        /\ forall key, key ≠ "camera_opt_translation" -> key ≠ "camera_opt_rotation" ->
             metrics !! key = reported !! key
  end.
Proof.
  intros Hnext outputs reported.
  unfold VanillaPipeline.get_train_loss_dict, dm_next_train, model_call.
  unfold_monad. simpl. rewrite Hnext. simpl.
  unfold VanillaPipeline.contains, getitem.
  destruct (dm_get_param_groups env w !! _) as [[|p group]|] eqn:Hgroup; simpl.
  - done.
  - eexists _, _. split; [done|].
    split; [by rewrite lookup_insert_ne, lookup_insert_eq|].
    split; [by rewrite lookup_insert_eq|].
    intros key Ht Hr. by rewrite !lookup_insert_ne.
  - by eexists.
Qed.

Lemma get_train_loss_dict_camera_metrics_witness :
  exists st',
    VanillaPipeline.get_train_loss_dict (Fixture.collaborators Fixture.psnr)
      (Fixture.config false false 0) 3 (Fixture.store true None)
    = Ok (({[ "rgb" := 0%nat ]}, {[ "rgb_loss" := 0%nat ]}, ∅), st').
Proof.
  exact (get_train_loss_dict_camera_metrics (Fixture.collaborators Fixture.psnr)
           (Fixture.config false false 0) 3 (Fixture.store true None)
           (8, 8)%nat {[ "image" := 0%nat ]} tt eq_refl).
Defined.



(** ** More on the dataset pass *)

(** X8: on an empty eval dataset the pass raises [IndexError], whatever the
    configuration. *)
Theorem get_average_eval_image_metrics_empty_dataset {Tensor RayBundle World : Type}
    (env : Collaborators Tensor RayBundle World) (config : VanillaPipelineConfig)
    (step : option Z) (return_imgs : bool) (st : Store RayBundle World) :
  eval_dataset_len env (world st) = 0%nat ->
  VanillaPipeline.get_average_eval_image_metrics env config step return_imgs st
  = Raise IndexError.
Proof.
  intros Hlen. unfold VanillaPipeline.get_average_eval_image_metrics, eval.
  unfold_monad. simpl. by rewrite Hlen.
Qed.

Lemma get_average_eval_image_metrics_empty_dataset_witness :
  VanillaPipeline.get_average_eval_image_metrics
    (with_eval_dataset_len 0 (Fixture.collaborators Fixture.psnr))
    (Fixture.config true true 2) None false (Fixture.store true None)
  = Raise IndexError.
Proof.
  by apply (get_average_eval_image_metrics_empty_dataset
              (with_eval_dataset_len 0 (Fixture.collaborators Fixture.psnr))).
Defined.

Section PassFacts.
Context {Tensor RayBundle World : Type}.
Context (env : Collaborators Tensor RayBundle World).
Context (config : VanillaPipelineConfig).
Implicit Types st : Store RayBundle World.

(** What one iteration of the pose loop that returns has done. *)
Lemma pose_iteration_Ok idx a s a1 s1 :
  pose_iteration env config idx a s = Ok (a1, s1) ->
  a1 = get_eval_image env idx (eval_image_scale_factor config) (cameras s)
         (zero_grad env (world s))
  /\ training s1 = training s /\ grad_enabled s1 = grad_enabled s
  /\ cameras s1 = cameras s /\ ticks s1 = ticks s
  /\ trace s1
     = trace s ++ [GetEvalImage idx (eval_image_scale_factor config);
                   Render a1.1 (grad_enabled s)].
Proof.
  unfold pose_iteration, update_world, dm_get_eval_image, render, getitem.
  unfold_monad. simpl.
  destruct (get_eval_image env idx _ _ _) as [bundle batch] eqn:Hfetch. simpl.
  destruct (_ !! "rgb_loss"); [|done].
  intros [= <- <-]. simpl. by rewrite <- app_assoc.
Qed.

Lemma appearance_iteration_Ok idx side half_width a s a1 s1 :
  appearance_iteration env config idx side half_width a s = Ok (a1, s1) ->
  a1 = get_eval_image env idx (eval_image_scale_factor config) (cameras s)
         (zero_grad env (world s))
  /\ training s1 = training s /\ grad_enabled s1 = grad_enabled s
  /\ cameras s1 = cameras s /\ ticks s1 = ticks s
  /\ trace s1
     = trace s ++ [GetEvalImage idx (eval_image_scale_factor config);
                   Render a1.1 (grad_enabled s)].
Proof.
  unfold appearance_iteration, update_world, dm_get_eval_image, render, getitem.
  unfold_monad. simpl.
  destruct (get_eval_image env idx _ _ _) as [bundle batch] eqn:Hfetch. simpl.
  destruct (batch !! "image"); [|done].
  destruct (_ !! "rgb"); [|done].
  intros [= <- <-]. simpl. by rewrite <- app_assoc.
Qed.

(** The store a loop of [n] such iterations leaves. *)
Lemma fetch_loop_Ok idx n (body : RayBundle * gmap string Tensor ->
                                 M (Store RayBundle World)
                                   (RayBundle * gmap string Tensor))
    a st a' st' :
  (forall a s a1 s1,
      body a s = Ok (a1, s1) ->
      a1 = get_eval_image env idx (eval_image_scale_factor config) (cameras s)
             (zero_grad env (world s))
      /\ training s1 = training s /\ grad_enabled s1 = grad_enabled s
      /\ cameras s1 = cameras s /\ ticks s1 = ticks s
      /\ trace s1
         = trace s ++ [GetEvalImage idx (eval_image_scale_factor config);
                       Render a1.1 (grad_enabled s)]) ->
  iterate n body a st = Ok (a', st') ->
  training st' = training st /\ grad_enabled st' = grad_enabled st
  /\ cameras st' = cameras st /\ ticks st' = ticks st
  /\ fetches (trace st')
     = fetches (trace st) ++ replicate n (idx, eval_image_scale_factor config)
  /\ rescale_factors (trace st') = rescale_factors (trace st)
  /\ (grad_enabled st = true -> no_grad_renders (trace st') = no_grad_renders (trace st))
  /\ (n = 0%nat -> a' = a)
  /\ (n ≠ 0%nat ->
      exists w, a' = get_eval_image env idx (eval_image_scale_factor config)
                       (cameras st) w).
Proof.
  intros Hbody. revert a st. induction n as [|n IH]; intros a st; simpl.
  - unfold ret. intros [= <- <-]. rewrite app_nil_r. by repeat split.
  - unfold bind. destruct (body a st) as [[a1 s1]|e] eqn:Hb; [|done].
    intros Hrun.
    apply Hbody in Hb as (Ha1 & Hmode & Hgrad & Hcam & Hticks & Htrace).
    apply IH in Hrun as (Hmode' & Hgrad' & Hcam' & Hticks' & Hfetch & Hfac & Hng
                         & Hzero & Hlast).
    split; [congruence|]. split; [congruence|]. split; [congruence|].
    split; [congruence|]. rewrite Htrace in Hfetch, Hfac, Hng.
    unfold fetches, rescale_factors, no_grad_renders in *.
    rewrite omap_app in Hfetch. rewrite omap_app in Hfac. rewrite omap_app in Hng.
    simpl in Hfetch, Hfac, Hng.
    rewrite app_nil_r in Hfac.
    split; [by rewrite Hfetch, <- app_assoc|]. split; [done|].
    split.
    + intros Hg. rewrite Hgrad in Hng. rewrite Hg in Hng. simpl in Hng.
      rewrite app_nil_r in Hng. by apply Hng.
    + split; [done|]. intros _. destruct n as [|n].
      * rewrite (Hzero eq_refl), Ha1. by eexists.
      * rewrite Hcam in Hlast. by apply Hlast.
Qed.

Ltac run_step H :=
  unfold update_world, train, eval, rescale_output_resolution, dm_get_eval_image,
    render, time, modify, gets in H;
  injection H as <- <-.

(** What a pose optimization that returns has done. *)
Lemma optimize_cameras_Ok idx current st r st' :
  VanillaPipeline.optimize_cameras env config idx current st = Ok (r, st') ->
  eval_image_scale_factor config ≠ Q2Qc 0
  /\ training st' = false /\ grad_enabled st' = grad_enabled st
  /\ cameras st' = cameras st /\ ticks st' = ticks st
  /\ fetches (trace st')
     = fetches (trace st)
       ++ replicate (Z.to_nat (eval_num_pose_iters config))
            (idx, eval_image_scale_factor config)
  /\ (grad_enabled st = true ->
      no_grad_renders (trace st') = no_grad_renders (trace st))
  /\ (Z.to_nat (eval_num_pose_iters config) = 0%nat -> r = current)
  /\ (Z.to_nat (eval_num_pose_iters config) ≠ 0%nat ->
      exists w, r = get_eval_image env idx (eval_image_scale_factor config)
                      (rescale (eval_image_scale_factor config) (cameras st)) w).
Proof.
  intros Hrun.
  destruct (optimize_cameras_restores env config idx current st r st' Hrun)
    as [Hrestored _].
  unfold VanillaPipeline.optimize_cameras in Hrun.
  apply bind_Ok in Hrun as (u1 & s1 & H1 & Hrun). run_step H1.
  apply bind_Ok in Hrun as (groups & s2 & H2 & Hrun). run_step H2.
  apply bind_Ok in Hrun as (group & s3 & H3 & Hrun). apply getitem_Ok in H3 as [_ ->].
  apply bind_Ok in Hrun as (u4 & s4 & H4 & Hrun). run_step H4.
  apply bind_Ok in Hrun as (u5 & s5 & H5 & Hrun). run_step H5.
  apply bind_Ok in Hrun as (u6 & s6 & H6 & Hrun). run_step H6.
  apply bind_Ok in Hrun as (cur & s7 & H7 & Hrun).
  apply (fetch_loop_Ok idx _ (pose_iteration env config idx)) in H7
    as (Hmode & Hgrad & Hcam & Hticks & Hfetch & _ & Hng & Hzero & Hlast);
    [|apply pose_iteration_Ok].
  apply bind_Ok in Hrun as (factor & s8 & H8 & Hrun).
  apply truediv_Ok in H8 as (Hf & -> & ->).
  apply bind_Ok in Hrun as (u9 & s9 & H9 & Hrun). run_step H9.
  apply bind_Ok in Hrun as (u10 & s10 & H10 & Hrun). run_step H10.
  unfold mret, M_ret, ret in Hrun. injection Hrun as <- <-.
  simpl in *. unfold fetches, no_grad_renders in *.
  rewrite omap_app in Hfetch. rewrite omap_app in Hng. simpl in Hfetch, Hng.
  rewrite app_nil_r in Hfetch. rewrite !omap_app. simpl. rewrite !app_nil_r.
  split; [done|]. split; [done|]. split; [done|]. split; [done|]. split; [done|].
  split; [done|]. split; [|done].
  intros Hg. rewrite (Hng Hg). by rewrite app_nil_r.
Qed.

(** What an appearance optimization that returns has done. *)
Lemma optimize_appearance_Ok idx width current st r st' :
  VanillaPipeline.optimize_appearance env config idx width current st = Ok (r, st') ->
  eval_image_scale_factor config ≠ Q2Qc 0
  /\ training st' = false /\ grad_enabled st' = grad_enabled st
  /\ cameras st' = cameras st /\ ticks st' = ticks st
  /\ fetches (trace st')
     = fetches (trace st)
       ++ replicate (Z.to_nat (eval_num_appearance_iters config))
            (idx, eval_image_scale_factor config)
  /\ (grad_enabled st = true ->
      no_grad_renders (trace st') = no_grad_renders (trace st))
  /\ (Z.to_nat (eval_num_appearance_iters config) = 0%nat -> r = current)
  /\ (Z.to_nat (eval_num_appearance_iters config) ≠ 0%nat ->
      exists w, r = get_eval_image env idx (eval_image_scale_factor config)
                      (rescale (eval_image_scale_factor config) (cameras st)) w).
Proof.
  intros Hrun.
  destruct (optimize_appearance_restores env config idx width current st r st' Hrun)
    as [Hrestored _].
  unfold VanillaPipeline.optimize_appearance in Hrun.
  apply bind_Ok in Hrun as (u1 & s1 & H1 & Hrun). run_step H1.
  apply bind_Ok in Hrun as (u2 & s2 & H2 & Hrun). run_step H2.
  apply bind_Ok in Hrun as (u3 & s3 & H3 & Hrun). run_step H3.
  apply bind_Ok in Hrun as (params & s4 & H4 & Hrun). run_step H4.
  apply bind_Ok in Hrun as (u5 & s5 & H5 & Hrun). run_step H5.
  apply bind_Ok in Hrun as (side & s6 & H6 & Hrun).
  unfold choose_side in H6.
  destruct (random_choice env _) as [side' w']. injection H6 as -> <-.
  apply bind_Ok in Hrun as (cur & s7 & H7 & Hrun).
  apply (fetch_loop_Ok idx _ (appearance_iteration env config idx side (width / 2)))
    in H7 as (Hmode & Hgrad & Hcam & Hticks & Hfetch & _ & Hng & Hzero & Hlast);
    [|apply appearance_iteration_Ok].
  apply bind_Ok in Hrun as (factor & s8 & H8 & Hrun).
  apply truediv_Ok in H8 as (Hf & -> & ->).
  apply bind_Ok in Hrun as (u9 & s9 & H9 & Hrun). run_step H9.
  apply bind_Ok in Hrun as (u10 & s10 & H10 & Hrun). run_step H10.
  apply bind_Ok in Hrun as (u11 & s11 & H11 & Hrun). run_step H11.
  unfold mret, M_ret, ret in Hrun. injection Hrun as <- <-.
  simpl in *. unfold fetches, no_grad_renders in *.
  rewrite omap_app in Hfetch. rewrite omap_app in Hng. simpl in Hfetch, Hng.
  rewrite app_nil_r in Hfetch. rewrite !omap_app. simpl. rewrite !app_nil_r.
  split; [done|]. split; [done|]. split; [done|]. split; [done|]. split; [done|].
  split; [done|]. split; [|done].
  intros Hg. rewrite (Hng Hg). by rewrite app_nil_r.
Qed.

Lemma final_metrics_nonzero inner_start height width num_rays current st r st' :
  VanillaPipeline.final_metrics env inner_start height width num_rays current st
  = Ok (r, st') ->
  (height * width)%nat ≠ 0%nat.
Proof.
  destruct current as [bundle batch]. rewrite final_metrics_run. cbv zeta.
  destruct (VanillaPipeline.contains "num_rays_per_sec" _); [done|].
  destruct (Qeq_bool (this _) 0); [done|].
  destruct (VanillaPipeline.contains "fps" _); [done|].
  destruct (Qeq_bool (this (Qc_of_nat _)) 0) eqn:Hz; [done|].
  intros _ Hzero. rewrite Hzero in Hz. by vm_compute in Hz.
Qed.


(** What the evaluation of one image in the pass has done when it
    returns. [pose] and [appearance] are the numbers of iterations run. *)
Lemma eval_image_Ok idx st r st' :
  VanillaPipeline.eval_image env config idx st = Ok (r, st') ->
  let native := get_eval_image env idx (Q2Qc 1) (cameras st) (world st) in
  let num_rays := ((shape env native.1).1 * (shape env native.1).2)%nat in
  let pose :=
    if eval_optimize_cameras config
    then Z.to_nat (eval_num_pose_iters config) else 0%nat in
  let appearance :=
    if eval_optimize_appearance config
    then Z.to_nat (eval_num_appearance_iters config) else 0%nat in
  let elapsed := (clock env (S (ticks st)) - clock env (ticks st))%Qc in
  exists bundle batch (s : Store RayBundle World),
    r = (<["fps" := (Qc_of_nat num_rays / elapsed / Qc_of_nat num_rays)%Qc]>
           (<["num_rays_per_sec" := (Qc_of_nat num_rays / elapsed)%Qc]>
              (model_image_metrics env (world s) (training s) bundle batch).1),
         (model_image_metrics env (world s) (training s) bundle batch).2)
    /\ trace st' = trace s ++ [Render bundle false]
    /\ training s = training st'
    /\ elapsed ≠ Q2Qc 0 /\ num_rays ≠ 0%nat
    /\ (eval_optimize_cameras config || eval_optimize_appearance config = true ->
        eval_image_scale_factor config ≠ Q2Qc 0 /\ training st' = false)
    /\ (eval_optimize_cameras config || eval_optimize_appearance config = false ->
        training st' = training st)
    /\ cameras st' = cameras st /\ grad_enabled st' = grad_enabled st
    /\ ticks st' = S (S (ticks st))
    /\ fetches (trace st')
       = fetches (trace st) ++ (idx, Q2Qc 1)
         :: replicate (pose + appearance) (idx, eval_image_scale_factor config)
    /\ (grad_enabled st = true ->
        no_grad_renders (trace st') = no_grad_renders (trace st) ++ [bundle])
    /\ ((pose + appearance)%nat = 0%nat -> (bundle, batch) = native)
    /\ ((pose + appearance)%nat ≠ 0%nat ->
        exists w, (bundle, batch)
                  = get_eval_image env idx (eval_image_scale_factor config)
                      (rescale (eval_image_scale_factor config) (cameras st)) w)
    /\ world s = world st'.
Proof.
  unfold VanillaPipeline.eval_image. intros Hrun.
  apply bind_Ok in Hrun as (cur & s1 & H1 & Hrun).
  unfold dm_get_eval_image in H1. injection H1 as <- <-.
  apply bind_Ok in Hrun as (inner_start & s2 & H2 & Hrun).
  unfold time in H2. injection H2 as <- <-.
  destruct (shape env _) as [height width] eqn:Hshape. cbn [fst snd].
  apply bind_Ok in Hrun as (cur1 & s3 & H3 & Hrun).
  apply bind_Ok in Hrun as ([bundle batch] & s4 & H4 & Hrun).
  pose proof (final_metrics_nonzero _ _ _ _ _ _ _ _ Hrun) as Hrays.
  apply final_metrics_Ok in Hrun as (_ & _ & Hz & -> & ->).
  exists bundle, batch, s4.
  assert (fetches (trace (set_ticks (S (ticks st))
                            (log (GetEvalImage idx (Q2Qc 1)) st)))
          = fetches (trace st) ++ [(idx, Q2Qc 1)]) as Hfirst.
  { simpl. unfold fetches. by rewrite omap_app. }
  assert (no_grad_renders (trace (set_ticks (S (ticks st))
                                   (log (GetEvalImage idx (Q2Qc 1)) st)))
          = no_grad_renders (trace st)) as Hnone.
  { simpl. unfold no_grad_renders. rewrite omap_app. simpl. by rewrite app_nil_r. }
  assert (no_grad_renders (trace (after_final_metrics bundle s4))
          = no_grad_renders (trace s4) ++ [bundle]) as Hlast.
  { simpl. unfold no_grad_renders. by rewrite omap_app. }
  assert (fetches (trace (after_final_metrics bundle s4)) = fetches (trace s4))
    as Hsame.
  { simpl. unfold fetches. rewrite omap_app. simpl. by rewrite app_nil_r. }
  rewrite Hlast, Hsame. clear Hlast Hsame.
  destruct (eval_optimize_cameras config) eqn:Hcam;
    destruct (eval_optimize_appearance config) eqn:Happ; cbn [orb].
  - apply optimize_cameras_Ok in H3
      as (Hf & Hm3 & Hg3 & Hc3 & Ht3 & Hfe3 & Hn3 & Hz3 & Hl3).
    apply optimize_appearance_Ok in H4
      as (_ & Hm4 & Hg4 & Hc4 & Ht4 & Hfe4 & Hn4 & Hz4 & Hl4).
    simpl in *. rewrite Ht4, Ht3 in Hz |- *.
    split_and!; try done; try congruence;
      try (by rewrite Hfe4, Hfe3, Hfirst, <- !app_assoc, replicate_add);
      try (intros Hg; rewrite Hn4, Hn3, Hnone by congruence; done);
      try (intros Hsum; rewrite Hz4, Hz3 by lia; done).
    intros Hsum.
    destruct (Z.to_nat (eval_num_appearance_iters config)) as [|k] eqn:Hk.
    + rewrite (Hz4 eq_refl). apply Hl3. lia.
    + rewrite Hc3 in Hl4. by apply Hl4.
  - apply optimize_cameras_Ok in H3
      as (Hf & Hm3 & Hg3 & Hc3 & Ht3 & Hfe3 & Hn3 & Hz3 & Hl3).
    unfold mret, M_ret, ret in H4. injection H4 as -> <-.
    simpl in *. rewrite Ht3 in Hz |- *. rewrite Nat.add_0_r.
    split_and!; try done; try congruence;
      try (by rewrite Hfe3, Hfirst, <- !app_assoc);
      try (intros Hg; rewrite Hn3, Hnone by congruence; done).
  - unfold mret, M_ret, ret in H3. injection H3 as <- <-.
    apply optimize_appearance_Ok in H4
      as (Hf & Hm4 & Hg4 & Hc4 & Ht4 & Hfe4 & Hn4 & Hz4 & Hl4).
    simpl in *. rewrite Ht4 in Hz |- *.
    split_and!; try done; try congruence;
      try (by rewrite Hfe4, Hfirst, <- !app_assoc);
      try (intros Hg; rewrite Hn4, Hnone by congruence; done).
  - unfold mret, M_ret, ret in H3, H4. injection H3 as <- <-. injection H4 as Hcur <-.
    simpl in *.
    split_and!; try done;
      try (by rewrite Hfirst);
      try (intros Hg; by rewrite Hnone).
Qed.

(** A loop that runs [step] on every index and appends its two results to
    two lists. *)
Lemma for_each_collect {X Y} (R : relation (Store RayBundle World)) `{!PreOrder R}
    (Q : X -> Prop) (step : nat -> M (Store RayBundle World) (X * Y))
    idxs (xs : list X) (ys : list Y) st acc st' :
  (forall idx s r s1, step idx s = Ok (r, s1) -> R s s1 /\ Q r.1) ->
  for_each idxs
    (fun idx '(xs, ys) => '(x, y) ← step idx; mret (xs ++ [x], ys ++ [y]))
    (xs, ys) st = Ok (acc, st') ->
  R st st'
  /\ exists xs' ys',
       acc = (xs ++ xs', ys ++ ys')
       /\ length xs' = length idxs /\ length ys' = length idxs /\ Forall Q xs'.
Proof.
  intros Hstep. revert xs ys st.
  induction idxs as [|idx idxs IH]; intros xs ys st; simpl.
  - unfold ret. intros [= <- <-]. split; [done|].
    exists [], []. by rewrite !app_nil_r.
  - intros Hrun. apply bind_Ok in Hrun as ([xs1 ys1] & s1 & Hbody & Hrun).
    apply bind_Ok in Hbody as ([x y] & s2 & Hx & Hbody).
    unfold mret, M_ret, ret in Hbody. injection Hbody as <- <- <-.
    apply Hstep in Hx as [HR HQ].
    apply IH in Hrun as (HR' & xs' & ys' & -> & Hlx & Hly & HQ').
    split; [by etrans|].
    exists (x :: xs'), (y :: ys'). rewrite <- !app_assoc. simpl.
    split; [done|]. split; [by rewrite Hlx|]. split; [by rewrite Hly|].
    by constructor.
Qed.

#[local] Instance restored_preorder : PreOrder (@restored RayBundle World).
Proof.
  split.
  - by intros st.
  - intros s1 s2 s3 [H1 H2] [H3 H4]. split; congruence.
Qed.

Lemma eval_image_step idx s r s1 :
  VanillaPipeline.eval_image env config idx s = Ok (r, s1) ->
  restored s s1 /\ image_dict_ok config r.1.
Proof.
  intros Hrun.
  apply eval_image_Ok in Hrun
    as (bundle & batch & s' & -> & _ & _ & _ & _ & Hon & _ & Hcam & Hgrad & _).
  split; [by split|]. unfold image_dict_ok. simpl.
  split; [by rewrite lookup_insert_ne, lookup_insert_eq|].
  split; [by rewrite lookup_insert_eq|].
  intros Hflags. by apply Hon.
Qed.

(** What a pass that returns has done. *)
Lemma get_average_eval_image_metrics_pass step return_imgs st r st' :
  VanillaPipeline.get_average_eval_image_metrics env config step return_imgs st
  = Ok (r, st') ->
  exists dicts imgs images,
    length dicts = eval_dataset_len env (world st)
    /\ length imgs = eval_dataset_len env (world st)
    /\ Forall (image_dict_ok config) dicts
    /\ average_metrics dicts = Ok r.1
    /\ stack_images (stack env) imgs = Ok images
    /\ r.2 = (if return_imgs then Some images else None)
    /\ restored st st' /\ training st' = true.
Proof.
  unfold VanillaPipeline.get_average_eval_image_metrics. intros Hrun.
  apply bind_Ok in Hrun as (u1 & s1 & H1 & Hrun).
  unfold eval, modify in H1. injection H1 as <- <-.
  apply bind_Ok in Hrun as (num_images & s2 & H2 & Hrun).
  unfold gets in H2. injection H2 as <- <-.
  apply bind_Ok in Hrun as ([dicts imgs] & s3 & Hloop & Hrun).
  apply (for_each_collect restored (image_dict_ok config)
           (VanillaPipeline.eval_image env config)) in Hloop
    as ([Hcam Hgrad] & xs' & ys' & [= -> ->] & Hlx & Hly & HQ);
    [|apply eval_image_step].
  rewrite length_seq in Hlx, Hly. simpl in *.
  apply bind_Ok in Hrun as (metrics_dict & s4 & Havg & Hrun).
  apply lift_Ok in Havg as [Havg ->].
  apply bind_Ok in Hrun as (images_dict & s5 & Hstack & Hrun).
  apply lift_Ok in Hstack as [Hstack ->].
  apply bind_Ok in Hrun as (u2 & s6 & Htrain & Hrun).
  unfold train, modify in Htrain. injection Htrain as <- <-.
  exists xs', ys', images_dict.
  unfold mret, M_ret, ret in Hrun.
  destruct return_imgs; simpl in Hrun; injection Hrun as <- <-; by split_and!.
Qed.

End PassFacts.

(** ** The keys added to the metrics of an image *)

(** C2, as the code has it. [get_eval_image_metrics_and_images] returns
    the dict of the model with [image_idx] (the index of the image) and
    [num_rays] (the length of the ray bundle, its height times its width)
    added, and adds no rate. The dict of an image in the dataset pass is
    the dict the model reports for the bundle of the final render, with
    [num_rays_per_sec] (height * width of the first fetch over the time
    between the two clock readings of the image) and [fps] (that rate over
    height * width) added, and no index or ray count added. *)
Theorem injected_keys_by_operation {Tensor RayBundle World : Type}
    (env : Collaborators Tensor RayBundle World) (config : VanillaPipelineConfig)
    (st : Store RayBundle World) (step : Z) (idx : nat) :
  (forall image_idx bundle image w,
      next_eval_image env step (world st) = (image_idx, bundle, image, w) ->
      let height := (shape env bundle).1 in
      let width := (shape env bundle).2 in
      let reported := model_image_metrics env w false bundle image in
      len env bundle = (height * width)%nat ->
      reported.1 !! "image_idx" = None ->
      reported.1 !! "num_rays" = None ->
      exists metrics_dict st',
        VanillaPipeline.get_eval_image_metrics_and_images env step st
        = Ok ((metrics_dict, reported.2), st')
        /\ metrics_dict
           = <["num_rays" := Qc_of_nat (height * width)]>
               (<["image_idx" := Qc_of_nat image_idx]> reported.1)
        /\ metrics_dict !! "num_rays_per_sec" = reported.1 !! "num_rays_per_sec"
        /\ metrics_dict !! "fps" = reported.1 !! "fps")
  /\ (forall metrics_dict images_dict st',
        VanillaPipeline.eval_image env config idx st
        = Ok ((metrics_dict, images_dict), st') ->
        let native := get_eval_image env idx (Q2Qc 1) (cameras st) (world st) in
        let height := (shape env native.1).1 in
        let width := (shape env native.1).2 in
        let num_rays := Qc_of_nat (height * width) in
        let elapsed := (clock env (S (ticks st)) - clock env (ticks st))%Qc in
        let iterations :=
          ((if eval_optimize_cameras config
            then Z.to_nat (eval_num_pose_iters config) else 0)
           + (if eval_optimize_appearance config
              then Z.to_nat (eval_num_appearance_iters config) else 0))%nat in
        elapsed ≠ Q2Qc 0
        /\ exists events bundle image,
             let reported :=
               model_image_metrics env (world st') (training st') bundle image in
             trace st' = events ++ [Render bundle false]
             /\ (iterations = 0%nat -> (bundle, image) = native)
             /\ (iterations ≠ 0%nat ->
                 exists w,
                   (bundle, image)
                   = get_eval_image env idx (eval_image_scale_factor config)
                       (rescale (eval_image_scale_factor config) (cameras st)) w)
             /\ metrics_dict
                = <["fps" := (num_rays / elapsed / num_rays)%Qc]>
                    (<["num_rays_per_sec" := (num_rays / elapsed)%Qc]> reported.1)
             /\ images_dict = reported.2
             /\ metrics_dict !! "image_idx" = reported.1 !! "image_idx"
             /\ metrics_dict !! "num_rays" = reported.1 !! "num_rays").
Proof.
  split.
  - intros image_idx bundle image w Hnext height width reported Hlen Hidx Hrays.
    rewrite (get_eval_image_metrics_and_images_run env step st _ _ _ _ Hnext).
    cbv zeta. fold reported.
    apply contains_false in Hidx as Hidx', Hrays as Hrays'.
    rewrite Hidx', Hrays', Hlen.
    eexists _, _. split; [reflexivity|]. split; [reflexivity|].
    by rewrite !lookup_insert_ne.
  - intros metrics_dict images_dict st' Hrun native height width num_rays elapsed
      iterations.
    apply eval_image_Ok in Hrun
      as (bundle & image & s & Hr & Htrace & Hmode & Hz & _ & _ & _ & _ & _ & _ & _
          & _ & Hnative & Hfetch & Hworld).
    injection Hr as -> ->. rewrite Hmode, Hworld.
    split; [exact Hz|].
    exists (trace s), bundle, image. cbv zeta.
    split_and!; try done.
    + by rewrite !lookup_insert_ne.
    + by rewrite !lookup_insert_ne.
Qed.

(** On the half-second fixture: the single-image operation adds the index
    0 and the 64 rays of its 8 by 8 bundle; an image of 4 by 4 rays in the
    pass, with two iterations of each optimization, gets 32 rays per
    second and 2 frames per second. *)
Lemma injected_keys_by_operation_witness :
  (exists st',
     VanillaPipeline.get_eval_image_metrics_and_images half_second_collaborators 0
       (Fixture.store true None)
     = Ok ((<["num_rays" := Qc_of_nat 64]>
              (<["image_idx" := Qc_of_nat 0]> (Fixture.psnr 0)),
            {[ "img" := 0%nat ]}), st'))
  /\ (exists md imgs st',
        VanillaPipeline.eval_image half_second_collaborators
          (Fixture.config true true 2) 0 (Fixture.store true None)
        = Ok ((md, imgs), st')
        /\ md !! "num_rays_per_sec" = Some (Q2Qc 32)
        /\ md !! "fps" = Some (Q2Qc 2)
        /\ md !! "psnr" = Some (Qc_of_nat 20)).
Proof.
  pose proof (injected_keys_by_operation half_second_collaborators
                (Fixture.config true true 2) (Fixture.store true None) 0 0)
    as [Hsingle Hpass].
  split.
  - destruct (Hsingle 0%nat (8, 8)%nat {[ "image" := 0%nat ]} tt eq_refl eq_refl)
      as (md & st' & Hrun & -> & _); [done|done|].
    by exists st'.
  - destruct (VanillaPipeline.eval_image half_second_collaborators _ _ _)
      as [[[md imgs] st']|e] eqn:Hrun;
      [|by vm_compute in Hrun].
    destruct (Hpass md imgs st' eq_refl)
      as (_ & events & bundle & image & _ & Hnative & Hfetch & Hmd & _).
    exists md, imgs, st'. split; [done|].
    destruct (Hfetch ltac:(simpl; lia)) as [w [= -> ->]].
    rewrite Hmd.
    rewrite lookup_insert_ne, lookup_insert_eq by done.
    rewrite lookup_insert_eq.
    rewrite !lookup_insert_ne by done.
    split_and!; [f_equal; by apply Qc_is_canon..|done].
Defined.

(** C2 as stated fails: neither operation returns a dict with the four
    keys. *)
Lemma injected_keys_not_all_four :
  (exists md imgs st',
     VanillaPipeline.get_eval_image_metrics_and_images
       (Fixture.collaborators Fixture.psnr) 0 (Fixture.store true None)
     = Ok ((md, imgs), st')
     /\ md !! "num_rays_per_sec" = None /\ md !! "fps" = None)
  /\ (exists md imgs st',
        VanillaPipeline.eval_image (Fixture.collaborators Fixture.psnr)
          (Fixture.config true true 2) 0 (Fixture.store true None)
        = Ok ((md, imgs), st')
        /\ md !! "image_idx" = None /\ md !! "num_rays" = None).
Proof.
  split; eexists _, _, _; (split; [vm_compute; reflexivity|by vm_compute]).
Qed.








(** X12: with a zero [eval_image_scale_factor] and an optimization switched
    on, the pass never returns: the division [1.0 / eval_image_scale_factor]
    at the end of the optimization of the first image raises, if nothing
    did before. *)
Theorem zero_scale_factor_never_returns {Tensor RayBundle World : Type}
    (env : Collaborators Tensor RayBundle World) (config : VanillaPipelineConfig)
    (step : option Z) (return_imgs : bool) (st : Store RayBundle World) :
  eval_image_scale_factor config = Q2Qc 0 ->
  eval_optimize_cameras config || eval_optimize_appearance config = true ->
  is_ok (VanillaPipeline.get_average_eval_image_metrics env config step
           return_imgs st) = false.
Proof.
  intros Hzero Hflags.
  destruct (VanillaPipeline.get_average_eval_image_metrics _ _ _ _ _)
    as [[r st']|e] eqn:Hrun; [exfalso|done].
  apply get_average_eval_image_metrics_pass in Hrun
    as (dicts & imgs & images & _ & _ & Hok & Havg & _).
  destruct dicts as [|d0 rest]; [done|].
  apply Forall_inv in Hok as (_ & _ & Hf). by apply Hf.
Qed.

Lemma zero_scale_factor_never_returns_witness :
  is_ok (VanillaPipeline.get_average_eval_image_metrics
           (Fixture.collaborators Fixture.psnr)
           {| camera_optimizer_param_group := "camera_opt";
              eval_optimize_cameras := false;
              eval_num_pose_iters := 10;
              eval_optimize_appearance := true;
              eval_num_appearance_iters := 0;
              eval_image_scale_factor := Q2Qc 0 |}
           None false (Fixture.store true None)) = false.
Proof.
  by apply (zero_scale_factor_never_returns (Fixture.collaborators Fixture.psnr)).
Defined.

(** X13: the fetches of an image of the pass that returns: one at scale 1,
    then one per iteration of the optimizations switched on, each for the
    same image and at [eval_image_scale_factor]. A negative iteration
    count gives no iteration. *)
Theorem eval_image_fetches {Tensor RayBundle World : Type}
    (env : Collaborators Tensor RayBundle World) (config : VanillaPipelineConfig)
    (idx : nat) (st st' : Store RayBundle World)
    (r : gmap string Qc * gmap string Tensor) :
  VanillaPipeline.eval_image env config idx st = Ok (r, st') ->
  let pose :=
    if eval_optimize_cameras config
    then Z.to_nat (eval_num_pose_iters config) else 0%nat in
  let appearance :=
    if eval_optimize_appearance config
    then Z.to_nat (eval_num_appearance_iters config) else 0%nat in
  fetches (trace st')
  = fetches (trace st) ++ (idx, Q2Qc 1)
    :: replicate (pose + appearance) (idx, eval_image_scale_factor config).
Proof.
  intros Hrun.
  apply eval_image_Ok in Hrun
    as (bundle & batch & s & _ & _ & _ & _ & _ & _ & _ & _ & _ & _ & Hfetch & _).
  exact Hfetch.
Qed.

Lemma eval_image_fetches_witness :
  exists r st',
    VanillaPipeline.eval_image (Fixture.collaborators Fixture.psnr)
      (Fixture.config true true 2) 1 (Fixture.store true None) = Ok (r, st')
    /\ fetches (trace st')
       = (1%nat, Q2Qc 1) :: replicate 4 (1%nat, Q2Qc (1 # 8)).
Proof.
  destruct (VanillaPipeline.eval_image _ _ _ _) as [[r st']|e] eqn:Hrun;
    [|by vm_compute in Hrun].
  exists r, st'. split; [done|].
  exact (eval_image_fetches _ _ _ _ _ _ Hrun).
Defined.

(** X14: when no iteration runs, because the optimizations are off or their
    iteration counts are not positive, the final render of the image is the
    one of the bundle fetched at the start, at scale 1. *)
Theorem eval_image_without_iterations_renders_native {Tensor RayBundle World : Type}
    (env : Collaborators Tensor RayBundle World) (config : VanillaPipelineConfig)
    (idx : nat) (st st' : Store RayBundle World)
    (r : gmap string Qc * gmap string Tensor) :
  (eval_optimize_cameras config = false \/ (eval_num_pose_iters config <= 0)%Z) ->
  (eval_optimize_appearance config = false
   \/ (eval_num_appearance_iters config <= 0)%Z) ->
  VanillaPipeline.eval_image env config idx st = Ok (r, st') ->
  exists events,
    trace st'
    = events
      ++ [Render (get_eval_image env idx (Q2Qc 1) (cameras st) (world st)).1 false].
Proof.
  intros Hpose Happ Hrun.
  apply eval_image_Ok in Hrun
    as (bundle & batch & s & _ & Htrace & _ & _ & _ & _ & _ & _ & _ & _ & _ & _
        & Hnative & _).
  rewrite <- Hnative.
  - by exists (trace s).
  - destruct (eval_optimize_cameras config), (eval_optimize_appearance config),
      Hpose as [?|Hpose], Happ as [?|Happ]; try done;
      by rewrite ?Z2Nat.nonpos by done.
Qed.

Lemma eval_image_without_iterations_renders_native_witness :
  exists r st' events,
    VanillaPipeline.eval_image (Fixture.collaborators Fixture.psnr)
      (Fixture.config true true 0) 1 (Fixture.store true None) = Ok (r, st')
    /\ trace st' = events ++ [Render (8, 8)%nat false].
Proof.
  destruct (VanillaPipeline.eval_image _ _ _ _) as [[r st']|e] eqn:Hrun;
    [|by vm_compute in Hrun].
  assert (eval_num_pose_iters (Fixture.config true true 0) <= 0)%Z as Hpose
    by (simpl; lia).
  assert (eval_num_appearance_iters (Fixture.config true true 0) <= 0)%Z as Happ
    by (simpl; lia).
  destruct (eval_image_without_iterations_renders_native
              (Fixture.collaborators Fixture.psnr) (Fixture.config true true 0) 1
              (Fixture.store true None) st' r (or_intror Hpose) (or_intror Happ) Hrun)
    as [events Htrace].
  by exists r, st', events.
Defined.

(** X15: inside the pass, where the model has been put in inference mode,
    the metrics of an image are computed by the model in inference mode and
    the image leaves the model in inference mode, whether or not an
    optimization switched to trainable mode in between. *)
Theorem eval_image_final_render_in_inference_mode {Tensor RayBundle World : Type}
    (env : Collaborators Tensor RayBundle World) (config : VanillaPipelineConfig)
    (idx : nat) (st st' : Store RayBundle World)
    (r : gmap string Qc * gmap string Tensor) :
  training st = false ->
  VanillaPipeline.eval_image env config idx st = Ok (r, st') ->
  training st' = false
  /\ exists w bundle batch,
       r.2 = (model_image_metrics env w false bundle batch).2
       /\ forall key, key ≠ "fps" -> key ≠ "num_rays_per_sec" ->
            r.1 !! key = (model_image_metrics env w false bundle batch).1 !! key.
Proof.
  intros Hmode Hrun.
  apply eval_image_Ok in Hrun
    as (bundle & batch & s & -> & _ & Hs & _ & _ & Hon & Hoff & _).
  assert (training st' = false) as Hst'.
  { destruct (eval_optimize_cameras config || eval_optimize_appearance config);
      [by apply Hon|by rewrite Hoff]. }
  split; [done|]. exists (world s), bundle, batch.
  rewrite Hs, Hst'. split; [done|].
  intros key Hfps Hrate. simpl. by rewrite !lookup_insert_ne.
Qed.

Lemma eval_image_final_render_in_inference_mode_witness :
  exists r st',
    VanillaPipeline.eval_image (Fixture.collaborators Fixture.psnr)
      (Fixture.config true true 2) 1 (Fixture.store false None) = Ok (r, st')
    /\ training st' = false.
Proof.
  destruct (VanillaPipeline.eval_image _ _ _ _) as [[r st']|e] eqn:Hrun;
    [|by vm_compute in Hrun].
  exists r, st'. split; [done|].
  by destruct (eval_image_final_render_in_inference_mode
                 (Fixture.collaborators Fixture.psnr) (Fixture.config true true 2) 1
                 (Fixture.store false None) st' r eq_refl Hrun).
Defined.
